(** * The chatbot HTTP service of [app.py], embedded in Rocq

    [app.py] wires three Flask routes to an index built by an external
    library.  The file has one piece of shared mutable state, the global
    [index], and every interesting path goes through [try]/[except].  The
    embedding therefore is a small state-and-exception monad over the
    module's globals; the external collaborators (the document reader, the
    index constructor, the query engine, the request parser of the web
    framework) are oracles whose results the theorems quantify over. *)

From Stdlib Require Import SpecFloat.
From stdpp Require Import gmap strings list.

Local Open Scope string_scope.

(** ** Python values *)

(** What [json.loads] produces: [None], [bool], [int], [float], [str],
    [list] and [dict] (a [dict] keeps one value per key, hence a [gmap]).
    A Python [float] is an IEEE 754 double, kept here as its specification
    value. *)
#[warnings="-register-all"]
Inductive json : Type :=
  | JNull
  | JBool (b : bool)
  | JInt (z : Z)
  | JFloat (f : spec_float)
  | JString (s : string)
  | JArray (l : list json)
  | JObject (m : gmap string json).

(** Python's truth value of a parsed JSON value ([bool(v)]): [None],
    [False], zero of either numeric type, and the empty string, list and
    dict are falsy. *)
Definition truthy (v : json) : bool :=
  match v with
  | JNull => false
  | JBool b => b
  | JInt z => negb (Z.eqb z 0)
  | JFloat (S754_zero _) => false
  | JFloat _ => true
  | JString s => negb (String.eqb s "")
  | JArray l => match l with [] => false | _ :: _ => true end
  | JObject m => negb (bool_decide (m = ∅))
  end.

(** ** Exceptions *)

(** The exception classes that occur in [app.py] and in the framework paths
    it goes through, a constructor for every other class deriving from
    [Exception] that a library may raise, and the classes deriving from
    [BaseException] only, which an [except Exception] clause lets through. *)
Inductive py_class : Type :=
  | ValueError
  | AttributeError
  | BadRequest
  | UnsupportedMediaType
  | LibraryError (name : string)
  | KeyboardInterrupt
  | SystemExit.

Record py_exception : Type := PyExc { exc_class : py_class; exc_msg : string }.

(** [isinstance(e, Exception)]. *)
Definition is_Exception (e : py_exception) : bool :=
  match exc_class e with
  | KeyboardInterrupt | SystemExit => false
  | _ => true
  end.

(** A call either returns a value or raises. *)
Inductive outcome (A : Type) : Type :=
  | Returned (a : A)
  | Raised (e : py_exception).
Arguments Returned {A} a.
Arguments Raised {A} e.

Definition outcome_bind {A B} (o : outcome A) (k : A → outcome B) : outcome B :=
  match o with
  | Returned a => k a
  | Raised e => Raised e
  end.

(** ** The external indexing library *)

Definition document : Type := string.

Record file : Type := File { file_name : string; file_text : string }.

(** Opaque handles of the library. *)
Inductive index_handle : Type := VectorStoreIndex (id : nat).
Inductive query_engine : Type := QueryEngine (id : nat).
Inductive llm_response : Type := LlmResponse (id : nat).

(** The library calls made by [app.py].  [load_data] stands for
    [SimpleDirectoryReader(path).load_data()] and is given the listing of
    the directory ([None] when the path does not exist). *)
Record llama_index : Type := LlamaIndex {
  load_data : option (list file) → outcome (list document);
  from_documents : list document → outcome index_handle;
  as_query_engine : index_handle → outcome query_engine;
  query : query_engine → json → outcome llm_response;
  str : llm_response → outcome string
}.

(** The file system as far as [app.py] looks at it: directories and their
    entries. *)
Definition os_path_exists (fs : gmap string (list file)) (path : string) : bool :=
  bool_decide (is_Some (fs !! path)).

(** [os.makedirs(path, exist_ok=True)]. *)
Definition os_makedirs (fs : gmap string (list file)) (path : string)
  : gmap string (list file) :=
  match fs !! path with
  | Some _ => fs
  | None => <[path := []]> fs
  end.

(** ** Module globals and the monad of handlers *)

Inductive log_level : Type := INFO | WARNING | ERROR.

(** The module's mutable state: the global [index] (line 30) and what
    [app.logger] has been given. *)
Record app_state : Type := AppState {
  index : option index_handle;
  logged : list (log_level * string)
}.

(** A computation reads and writes the globals and returns or raises; the
    globals written before a [raise] stay written. *)
Definition M (A : Type) : Type := app_state → outcome A * app_state.

Definition ret {A} (a : A) : M A := λ st, (Returned a, st).

Definition bind {A B} (m : M A) (k : A → M B) : M B :=
  λ st, match m st with
        | (Returned a, st') => k a st'
        | (Raised e, st') => (Raised e, st')
        end.

Notation "'let!' x ':=' m 'in' k" := (bind m (λ x, k))
  (at level 10, x name, m at level 100, k at level 200).
Notation "m >>> k" := (bind m (λ _, k))
  (at level 100, k at level 200, right associativity).

(** An external call: its outcome becomes the computation's. *)
Definition call {A} (o : outcome A) : M A := λ st, (o, st).

Definition get_index : M (option index_handle) := λ st, (Returned (index st), st).

Definition set_index (i : option index_handle) : M unit :=
  λ st, (Returned tt, {| index := i; logged := logged st |}).

Definition log (lvl : log_level) (msg : string) : M unit :=
  λ st, (Returned tt, {| index := index st; logged := logged st ++ [(lvl, msg)] |}).

(** [try: body except Exception as e: handler(e)]. *)
Definition try_except {A} (body : M A) (handler : py_exception → M A) : M A :=
  λ st, match body st with
        | (Returned a, st') => (Returned a, st')
        | (Raised e, st') =>
            if is_Exception e then handler e st' else (Raised e, st')
        end.

(** ** [construct_index] (lines 32-45) *)

Definition construct_index (lib : llama_index) (fs : gmap string (list file))
    (directory_path : string) : M (option index_handle) :=
  try_except
    (log INFO ("Constructing index from directory: " +:+ directory_path) >>>
     let! documents := call (load_data lib (fs !! directory_path)) in
     match documents with
     | [] =>
         log ERROR ("No documents found in directory: " +:+ directory_path) >>>
         ret None
     | _ :: _ =>
         let! i := call (from_documents lib documents) in
         set_index (Some i) >>>
         log INFO "Index constructed successfully." >>>
         get_index
     end)
    (λ e,
       log ERROR ("Error constructing index: " +:+ exc_msg e) >>>
       ret None).

(** ** [generate_response] (lines 47-58) *)

Definition index_not_available : string :=
  "Error: Chatbot index is not available. Please try again later.".

Definition could_not_generate : string :=
  "Error: Could not generate a response.".

(** Lines 53-55: the three library calls inside the [try]. *)
Definition question_answering (lib : llama_index) (i : index_handle)
    (input_text : json) : outcome string :=
  outcome_bind (as_query_engine lib i) (λ engine,
  outcome_bind (query lib engine input_text) (λ response,
  str lib response)).

Definition generate_response (lib : llama_index) (input_text : json) : M string :=
  let! current := get_index in
  match current with
  | None =>
      log ERROR "Index is not loaded." >>>
      ret index_not_available
  | Some i =>
      try_except
        (call (question_answering lib i input_text))
        (λ e,
           log ERROR ("Error generating response: " +:+ exc_msg e) >>>
           ret could_not_generate)
  end.

(** ** Requests and responses *)

Inductive http_method : Type := GET | POST.

(** What the framework finds in the request body: nothing, bytes that
    [json.loads] rejects, or bytes that it parses to a value. *)
Inductive request_data : Type :=
  | EmptyBody
  | MalformedBody (raw : string)
  | JsonBody (v : json).

Record request : Type := Request {
  method : http_method;
  path : string;
  is_json : bool;        (* the Content-Type names JSON *)
  data : request_data
}.

(** A response body is what [jsonify] made of a value, or a page of the
    framework's own. *)
Inductive http_body : Type :=
  | jsonify (v : json)
  | error_page (title : string).

Record http_response : Type := make_response {
  body : http_body;
  status : nat
}.

(** [request.json] of the framework: a request that does not announce JSON
    is refused with 415, a body that does not parse with 400, both by
    raising. *)
Definition request_json (r : request) : outcome json :=
  if is_json r then
    match data r with
    | JsonBody v => Returned v
    | EmptyBody | MalformedBody _ =>
        Raised (PyExc BadRequest "Failed to decode JSON object")
    end
  else
    Raised (PyExc UnsupportedMediaType
              "Did not attempt to load JSON data because the request Content-Type was not 'application/json'.").

(** [v.get(key)]: only a [dict] has the attribute; a missing key gives
    [None]. *)
Definition py_get (v : json) (key : string) : outcome json :=
  match v with
  | JObject m => Returned (default JNull (m !! key))
  | _ => Raised (PyExc AttributeError "object has no attribute 'get'")
  end.

(** ** The routes (lines 60-83) *)

Definition input_text_required : http_response :=
  make_response (jsonify (JObject {[ "error" := JString "input_text is required" ]})) 400.

Definition chatbot (lib : llama_index) (r : request) : M http_response :=
  let! request_body := call (request_json r) in
  let! input_text := call (py_get request_body "input_text") in
  if negb (truthy input_text) then
    ret input_text_required
  else
    let! response_text := generate_response lib input_text in
    ret (make_response (jsonify (JObject {[ "response" := JString response_text ]})) 200).

Definition reload_succeeded : http_response :=
  make_response (jsonify (JObject {[ "message" := JString "Index reloaded successfully" ]})) 200.

Definition reload_failed : http_response :=
  make_response (jsonify (JObject {[ "error" := JString "Failed to reload index" ]})) 500.

(** The handle of an index is an ordinary object, hence truthy; [None] is
    falsy. *)
Definition reload_index_route (lib : llama_index) (fs : gmap string (list file))
    : M http_response :=
  log INFO "Reloading index via API call..." >>>
  let! built := construct_index lib fs "docs" in
  match built with
  | Some _ => ret reload_succeeded
  | None => ret reload_failed
  end.

Definition hello : M http_response :=
  ret (make_response
         (jsonify (JObject (<[ "success" := JBool true ]>
                           (<[ "message" := JString "Hello from your DeepSeek-powered chatbot!" ]>
                           (<[ "data" := JObject ∅ ]> ∅)))))
         200).

(** ** The framework around the routes *)

(** What the framework makes of a handler that raises: an HTTP error
    becomes its own response, any other [Exception] a 500 page, and what is
    no [Exception] goes on to the server. *)
Definition handle_exception (e : py_exception) : outcome http_response :=
  match exc_class e with
  | BadRequest => Returned (make_response (error_page "Bad Request") 400)
  | UnsupportedMediaType =>
      Returned (make_response (error_page "Unsupported Media Type") 415)
  | _ =>
      if is_Exception e
      then Returned (make_response (error_page "Internal Server Error") 500)
      else Raised e
  end.

Definition dispatch (h : M http_response) : M http_response :=
  λ st, match h st with
        | (Returned resp, st') => (Returned resp, st')
        | (Raised e, st') => (handle_exception e, st')
        end.

(** The route table of the three decorators. *)
Definition serve (lib : llama_index) (fs : gmap string (list file)) (r : request)
    : M http_response :=
  if String.eqb (path r) "/api/chatbot" then
    match method r with
    | POST => dispatch (chatbot lib r)
    | GET => ret (make_response (error_page "Method Not Allowed") 405)
    end
  else if String.eqb (path r) "/api/chatbot/reload" then
    match method r with
    | POST => dispatch (reload_index_route lib fs)
    | GET => ret (make_response (error_page "Method Not Allowed") 405)
    end
  else if String.eqb (path r) "/api/chatbot/hello" then
    match method r with
    | GET => dispatch hello
    | POST => ret (make_response (error_page "Method Not Allowed") 405)
    end
  else ret (make_response (error_page "Not Found") 404).

(** ** Module initialisation (lines 9-30 and 85-90) *)

(** [DeepSeek(model=..., api_key=..., temperature=0.7)]; the temperature is
    kept as the numerator and denominator of the literal. *)
Record DeepSeek : Type := {
  model : string;
  api_key : option string;
  temperature : Z * Z
}.

(** What the module body leaves behind besides the globals. *)
Record process : Type := Process {
  cors_origins : list (option string);
  Settings_llm : DeepSeek;
  disk : gmap string (list file)
}.

(** [config.get(key)] and [config.get(key, fallback)] on the result of
    [dotenv_values], where a key may be bound to [None]. *)
Definition config_get (config : gmap string (option string)) (key : string)
  : option string :=
  default None (config !! key).

Definition config_get_default (config : gmap string (option string))
    (key : string) (fallback : string) : option string :=
  default (Some fallback) (config !! key).

(** Truth value of a [str] or [None]. *)
Definition str_truthy (v : option string) : bool :=
  match v with
  | Some s => negb (String.eqb s "")
  | None => false
  end.

Definition raise {A} (e : py_exception) : M A := call (Raised e).

Definition api_key_required : py_exception :=
  PyExc ValueError "DeepSeek API key is required".

(** Lines 16-20. *)
Definition DEEPSEEK_API_KEY (config : gmap string (option string))
    : M (option string) :=
  let key := config_get config "DEEPSEEK_API_KEY" in
  if negb (str_truthy key) then
    log ERROR "DEEPSEEK_API_KEY not found in .env file or environment variables." >>>
    raise api_key_required
  else ret key.

(** Lines 85-90, which also change the disk. *)
Definition initialize_index (lib : llama_index) (fs : gmap string (list file))
    : M (gmap string (list file)) :=
  let! fs' :=
    (if negb (os_path_exists fs "docs") then
       log WARNING "The 'docs' directory does not exist. Please create it and add your documents." >>>
       ret (os_makedirs fs "docs")
     else ret fs) in
  construct_index lib fs' "docs" >>>
  ret fs'.

(** The module body, top to bottom. *)
Definition module_init (config : gmap string (option string))
    (lib : llama_index) (fs : gmap string (list file)) : M process :=
  let origins := [config_get_default config "CLIENT_URL" "*"] in
  let! key := DEEPSEEK_API_KEY config in
  let llm := {| model := "deepseek-chat"; api_key := key; temperature := (7, 10)%Z |} in
  set_index None >>>
  let! fs' := initialize_index lib fs in
  ret {| cors_origins := origins; Settings_llm := llm; disk := fs' |}.

(** The globals before the module body runs. *)
Definition fresh_interpreter : app_state := {| index := None; logged := [] |}.

(** ** The module body over an operating system that may refuse *)

(** [os_path_exists] and [os_makedirs] above are the two calls on a disk
    that holds directories only and grants every creation.  The operating
    system can do two more things to lines 86-88: a path may exist without
    being a directory, and [os.makedirs] may raise an [OSError] when it has
    to create one. *)
Record operating_system : Type := OperatingSystem {
  other_paths : gset string;          (* paths that exist and are no directory *)
  makedirs_refused : option string    (* the message of the [OSError], if any *)
}.

Definition os_path_exists_on (os : operating_system)
    (fs : gmap string (list file)) (path : string) : bool :=
  bool_decide (path ∈ other_paths os) || os_path_exists fs path.

(** [os.makedirs(path, exist_ok=True)]: nothing to do for a directory; a
    path that is something else is an error; a creation may be refused. *)
Definition os_makedirs_on (os : operating_system)
    (fs : gmap string (list file)) (path : string)
    : outcome (gmap string (list file)) :=
  match fs !! path with
  | Some _ => Returned fs
  | None =>
      if bool_decide (path ∈ other_paths os) then
        Raised (PyExc (LibraryError "FileExistsError") path)
      else
        match makedirs_refused os with
        | Some message => Raised (PyExc (LibraryError "PermissionError") message)
        | None => Returned (<[path := []]> fs)
        end
  end.

(** The operating system of [os_path_exists] and [os_makedirs]. *)
Definition granting : operating_system :=
  {| other_paths := ∅; makedirs_refused := None |}.

(** The module body, top to bottom, with the globals and the disk it leaves
    behind however it ends. *)
Definition module_init_on (os : operating_system)
    (config : gmap string (option string)) (lib : llama_index)
    (fs : gmap string (list file)) (st : app_state)
    : outcome process * app_state * gmap string (list file) :=
  let origins := [config_get_default config "CLIENT_URL" "*"] in
  match DEEPSEEK_API_KEY config st with
  | (Raised e, st1) => (Raised e, st1, fs)
  | (Returned key, st1) =>
      let llm := {| model := "deepseek-chat"; api_key := key; temperature := (7, 10)%Z |} in
      let st2 := snd (set_index None st1) in
      if negb (os_path_exists_on os fs "docs") then
        let st3 :=
          snd (log WARNING "The 'docs' directory does not exist. Please create it and add your documents." st2) in
        match os_makedirs_on os fs "docs" with
        | Raised e => (Raised e, st3, fs)
        | Returned fs' =>
            match construct_index lib fs' "docs" st3 with
            | (Returned _, st4) =>
                (Returned {| cors_origins := origins; Settings_llm := llm; disk := fs' |},
                 st4, fs')
            | (Raised e, st4) => (Raised e, st4, fs')
            end
        end
      else
        match construct_index lib fs "docs" st2 with
        | (Returned _, st4) =>
            (Returned {| cors_origins := origins; Settings_llm := llm; disk := fs |},
             st4, fs)
        | (Raised e, st4) => (Raised e, st4, fs)
        end
  end.

(** ** Sample collaborators, used to run the definitions *)

Module Sample.

(** A reader that refuses an empty or missing directory, as the
    library's does, and otherwise gives one document per file. *)
Definition lib : llama_index := {|
  load_data := λ listing,
    match listing with
    | Some (f :: rest) => Returned (file_text <$> f :: rest)
    | Some [] => Raised (PyExc ValueError "No files found in docs.")
    | None => Raised (PyExc ValueError "Directory docs does not exist.")
    end;
  from_documents := λ docs, Returned (VectorStoreIndex (length docs));
  as_query_engine := λ i, match i with VectorStoreIndex n => Returned (QueryEngine n) end;
  query := λ _ q,
    match q with
    | JString _ => Returned (LlmResponse 0)
    | _ => Raised (PyExc (LibraryError "TypeError") "query must be a string")
    end;
  str := λ _, Returned "We open at nine."
|}.

(** The same library with a reader that gives an empty list for an empty
    directory. *)
Definition quiet_lib : llama_index := {|
  load_data := λ listing,
    match listing with
    | Some files => Returned (file_text <$> files)
    | None => Raised (PyExc ValueError "Directory docs does not exist.")
    end;
  from_documents := from_documents lib;
  as_query_engine := as_query_engine lib;
  query := query lib;
  str := str lib
|}.

(** A library whose index constructor fails. *)
Definition failing_lib : llama_index := {|
  load_data := load_data quiet_lib;
  from_documents := λ _, Raised (PyExc (LibraryError "APIConnectionError") "Connection error.");
  as_query_engine := as_query_engine lib;
  query := query lib;
  str := str lib
|}.

Definition faq : file := File "faq.txt" "Opening hours: 9 to 17.".

Definition empty_docs : gmap string (list file) := {[ "docs" := [] ]}.
Definition one_doc : gmap string (list file) := {[ "docs" := [faq] ]}.

Definition loaded : app_state :=
  {| index := Some (VectorStoreIndex 7); logged := [] |}.

Definition ask (body : request_data) : request :=
  {| method := POST; path := "/api/chatbot"; is_json := true; data := body |}.

Definition question : request :=
  ask (JsonBody (JObject {[ "input_text" := JString "When do you open?" ]})).

Definition reload : request :=
  {| method := POST; path := "/api/chatbot/reload"; is_json := false; data := EmptyBody |}.

Definition dotenv : gmap string (option string) :=
  {[ "DEEPSEEK_API_KEY" := Some "sk-test" ]}.

End Sample.

(** ** The vocabulary of the specification *)

(** "The directory yields zero documents". *)
Definition yields_zero_documents (lib : llama_index) (listing : option (list file))
    : Prop :=
  load_data lib listing = Returned [].

(** "The underlying construction call raises": the reader, or the index
    constructor on the documents read, raises an [Exception]. *)
Definition construction_raises (lib : llama_index) (listing : option (list file))
    : Prop :=
  ∃ e, is_Exception e = true ∧
       (load_data lib listing = Raised e ∨
        ∃ documents, documents ≠ [] ∧
                     load_data lib listing = Returned documents ∧
                     from_documents lib documents = Raised e).

Definition construction_fails (lib : llama_index) (listing : option (list file))
    : Prop :=
  yields_zero_documents lib listing ∨ construction_raises lib listing.

(** Construction succeeds with the index [i]. *)
Definition construction_succeeds (lib : llama_index) (listing : option (list file))
    (i : index_handle) : Prop :=
  ∃ documents, documents ≠ [] ∧
               load_data lib listing = Returned documents ∧
               from_documents lib documents = Returned i.

(** A request that reaches the route [p] with the method [m]. *)
Definition routed (m : http_method) (p : string) (r : request) : Prop :=
  method r = m ∧ path r = p.

(** The JSON body of the request is an object whose [input_text] is missing
    or falsy. *)
Definition input_text_missing_or_falsy (r : request) : Prop :=
  ∃ fields, request_json r = Returned (JObject fields) ∧
            (fields !! "input_text" = None ∨
             ∃ v, fields !! "input_text" = Some v ∧ truthy v = false).

(** The JSON body of the request is an object whose [input_text] is the
    truthy value [v]. *)
Definition input_text_given (r : request) (v : json) : Prop :=
  ∃ fields, request_json r = Returned (JObject fields) ∧
            fields !! "input_text" = Some v ∧ truthy v = true.

(** The request has no body, or one that is not valid JSON. *)
Definition body_absent_or_invalid (r : request) : Prop :=
  data r = EmptyBody ∨ ∃ raw, data r = MalformedBody raw.

(** The 200 response that carries [text] in its [response] field. *)
Definition answered (text : string) : http_response :=
  make_response (jsonify (JObject {[ "response" := JString text ]})) 200.

(** The field [key] of a JSON response body. *)
Definition body_field (resp : http_response) (key : string) : option json :=
  match body resp with
  | jsonify (JObject fields) => fields !! key
  | _ => None
  end.

(** ** The server over time *)

(** The index that a construction from [listing] builds, if it builds one:
    the reader returns documents and the constructor returns. *)
Definition built_by (lib : llama_index) (listing : option (list file))
    : option index_handle :=
  match load_data lib listing with
  | Returned (d :: rest) =>
      match from_documents lib (d :: rest) with
      | Returned i => Some i
      | Raised _ => None
      end
  | Returned [] | Raised _ => None
  end.

(** One request as the server meets it: the request, with the library and
    the disk as they are at that moment. *)
Record exchange : Type := Exchange {
  at_lib : llama_index;
  at_disk : gmap string (list file);
  received : request
}.

(** The requests of a run handled one after the other over the same
    globals; the answers come out in order. *)
Fixpoint serve_all (run : list exchange) (st : app_state)
    : list (outcome http_response) * app_state :=
  match run with
  | [] => ([], st)
  | x :: later =>
      let (answer, st') := serve (at_lib x) (at_disk x) (received x) st in
      let (answers, st'') := serve_all later st' in
      (answer :: answers, st'')
  end.

(** What one request does to the global [index], read off the route table:
    only a POST to the reload route may change it, to the index it builds. *)
Definition index_after (x : exchange) (current : option index_handle)
    : option index_handle :=
  match method (received x) with
  | POST =>
      if String.eqb (path (received x)) "/api/chatbot/reload"
      then from_option Some current (built_by (at_lib x) (at_disk x !! "docs"))
      else current
  | GET => current
  end.

(** The definitions run: a question against a loaded index, against no
    index, and a rebuild from a directory with one file. *)
Example question_answered :
  fst (serve Sample.lib Sample.one_doc Sample.question Sample.loaded)
  = Returned (answered "We open at nine.").
Proof. vm_compute. reflexivity. Qed.

Example question_without_index :
  fst (serve Sample.lib Sample.one_doc Sample.question fresh_interpreter)
  = Returned (answered index_not_available).
Proof. vm_compute. reflexivity. Qed.

Example reload_one_doc :
  serve Sample.lib Sample.one_doc Sample.reload fresh_interpreter
  = (Returned reload_succeeded,
     {| index := Some (VectorStoreIndex 1);
        logged := [(INFO, "Reloading index via API call...");
                   (INFO, "Constructing index from directory: docs");
                   (INFO, "Index constructed successfully.")] |}).
Proof. vm_compute. reflexivity. Qed.

Example reload_empty_docs :
  serve Sample.lib Sample.empty_docs Sample.reload Sample.loaded
  = (Returned reload_failed,
     {| index := Some (VectorStoreIndex 7);
        logged := [(INFO, "Reloading index via API call...");
                   (INFO, "Constructing index from directory: docs");
                   (ERROR, "Error constructing index: No files found in docs.")] |}).
Proof. vm_compute. reflexivity. Qed.

(** ** Running the monad *)

Lemma bind_run {A B} (m : M A) (k : A → M B) st :
  bind m k st = match m st with
                | (Returned a, st') => k a st'
                | (Raised e, st') => (Raised e, st')
                end.
Proof. reflexivity. Qed.

Lemma try_except_returned {A} (body : M A) handler st a st' :
  body st = (Returned a, st') → try_except body handler st = (Returned a, st').
Proof. intros Hrun. unfold try_except. by rewrite Hrun. Qed.

Lemma try_except_caught {A} (body : M A) handler st e st' :
  body st = (Raised e, st') → is_Exception e = true →
  try_except body handler st = handler e st'.
Proof. intros Hrun He. unfold try_except. by rewrite Hrun, He. Qed.

Lemma try_except_passed {A} (body : M A) handler st e st' :
  body st = (Raised e, st') → is_Exception e = false →
  try_except body handler st = (Raised e, st').
Proof. intros Hrun He. unfold try_except. by rewrite Hrun, He. Qed.

(** Logging leaves the index alone. *)
Lemma log_index lvl msg st : index (snd (log lvl msg st)) = index st.
Proof. reflexivity. Qed.

(** ** [generate_response] *)

Lemma generate_response_absent lib input_text st :
  index st = None →
  generate_response lib input_text st
  = (Returned index_not_available,
     {| index := None; logged := logged st ++ [(ERROR, "Index is not loaded.")] |}).
Proof.
  intros Habsent. unfold generate_response, get_index.
  rewrite bind_run. cbn beta iota. rewrite Habsent.
  unfold bind, log, ret. cbn. by rewrite Habsent.
Qed.

Lemma generate_response_answer lib input_text st i answer :
  index st = Some i →
  question_answering lib i input_text = Returned answer →
  generate_response lib input_text st = (Returned answer, st).
Proof.
  intros Hi Hanswer. unfold generate_response, get_index.
  rewrite bind_run. cbn beta iota. rewrite Hi.
  apply try_except_returned. unfold call. by rewrite Hanswer.
Qed.

Lemma generate_response_caught lib input_text st i e :
  index st = Some i →
  question_answering lib i input_text = Raised e →
  is_Exception e = true →
  generate_response lib input_text st
  = (Returned could_not_generate,
     {| index := index st;
        logged := logged st ++ [(ERROR, "Error generating response: " +:+ exc_msg e)] |}).
Proof.
  intros Hi Hraise He. unfold generate_response, get_index.
  rewrite bind_run. cbn beta iota. rewrite Hi.
  erewrite try_except_caught; [| unfold call; by rewrite Hraise | done].
  unfold bind, log, ret. cbn. by rewrite Hi.
Qed.

Lemma generate_response_passed lib input_text st i e :
  index st = Some i →
  question_answering lib i input_text = Raised e →
  is_Exception e = false →
  generate_response lib input_text st = (Raised e, st).
Proof.
  intros Hi Hraise He. unfold generate_response, get_index.
  rewrite bind_run. cbn beta iota. rewrite Hi.
  apply try_except_passed; [| done]. unfold call. by rewrite Hraise.
Qed.

(** The answer depends on the globals through the index only. *)
Lemma generate_response_reads_index lib input_text st1 st2 :
  index st1 = index st2 →
  fst (generate_response lib input_text st1) = fst (generate_response lib input_text st2).
Proof.
  intros Hsame.
  destruct (index st2) as [i|] eqn:H2.
  - destruct (question_answering lib i input_text) as [answer|e] eqn:Hq.
    + by rewrite !(generate_response_answer _ _ _ i answer).
    + destruct (is_Exception e) eqn:He.
      * by rewrite !(generate_response_caught _ _ _ i e).
      * by rewrite !(generate_response_passed _ _ _ i e).
  - by rewrite !generate_response_absent.
Qed.

(** C10. [generate_response] never writes the global [index]: whatever the
    input text and whatever the index state (absent, present and answering,
    present with a query engine that raises, caught or not), the reference
    after the call is the reference before it.  The same holds for the whole
    of every request that is not routed to the reload route, whose handler
    is the one that calls [construct_index]. *)
Theorem generate_response_preserves_index :
  (∀ lib input_text st,
     index (snd (generate_response lib input_text st)) = index st) ∧
  (∀ lib fs r st,
     path r ≠ "/api/chatbot/reload" →
     index (snd (serve lib fs r st)) = index st).
Proof.
  assert (Hgen : ∀ lib input_text st,
            index (snd (generate_response lib input_text st)) = index st).
  { intros lib input_text st.
    destruct (index st) as [i|] eqn:Hi.
    - destruct (question_answering lib i input_text) as [answer|e] eqn:Hq.
      + by rewrite (generate_response_answer _ _ _ i answer).
      + destruct (is_Exception e) eqn:He.
        * by rewrite (generate_response_caught _ _ _ i e).
        * by rewrite (generate_response_passed _ _ _ i e).
    - by rewrite generate_response_absent. }
  split; [exact Hgen |].
  intros lib fs r st Hpath. unfold serve.
  destruct (String.eqb_spec (path r) "/api/chatbot") as [_|_].
  - destruct (method r); [done |].
    unfold dispatch, chatbot. rewrite bind_run. unfold call at 1.
    destruct (request_json r) as [request_body|e]; [| done].
    rewrite bind_run. unfold call at 1.
    destruct (py_get request_body "input_text") as [input_text|e]; [| done].
    destruct (truthy input_text); cbn [negb]; [| done].
    rewrite bind_run. specialize (Hgen lib input_text st).
    by destruct (generate_response lib input_text st) as [[answer|e] st'].
  - destruct (String.eqb_spec (path r) "/api/chatbot/reload") as [Heq|_]; [done |].
    destruct (String.eqb (path r) "/api/chatbot/hello"); [| done].
    by destruct (method r).
Qed.

(** ** [construct_index] *)

Ltac run_construct_index :=
  unfold construct_index, try_except, bind, log, call, ret, set_index, get_index;
  cbn [fst snd index logged].

Lemma construct_index_built lib fs directory_path st i :
  construction_succeeds lib (fs !! directory_path) i →
  construct_index lib fs directory_path st
  = (Returned (Some i),
     {| index := Some i;
        logged := (logged st
                   ++ [(INFO, "Constructing index from directory: " +:+ directory_path)])
                   ++ [(INFO, "Index constructed successfully.")] |}).
Proof.
  intros (documents & Hsome & Hload & Hbuild).
  run_construct_index. rewrite Hload.
  destruct documents as [|d rest]; [done |].
  by rewrite Hbuild.
Qed.

Lemma construct_index_failed lib fs directory_path st :
  construction_fails lib (fs !! directory_path) →
  ∃ entry,
    construct_index lib fs directory_path st
    = (Returned None,
       {| index := index st;
          logged := (logged st
                     ++ [(INFO, "Constructing index from directory: " +:+ directory_path)])
                     ++ [(ERROR, entry)] |}).
Proof.
  intros [Hzero | (e & He & [Hload | (documents & Hsome & Hload & Hbuild)])];
    run_construct_index.
  - rewrite Hzero. eauto.
  - rewrite Hload, He. eauto.
  - rewrite Hload. destruct documents as [|d rest]; [done |].
    rewrite Hbuild, He. eauto.
Qed.

(** A construction is a success, a failure, or is cut short by something
    that is no [Exception]. *)
Lemma construct_index_returns lib fs directory_path st built :
  fst (construct_index lib fs directory_path st) = Returned built →
  match built with
  | Some i => construction_succeeds lib (fs !! directory_path) i
  | None => construction_fails lib (fs !! directory_path)
  end.
Proof.
  run_construct_index.
  destruct (load_data lib (fs !! directory_path)) as [documents|e] eqn:Hload.
  - destruct documents as [|d rest].
    + intros [= <-]. by left.
    + destruct (from_documents lib (d :: rest)) as [i|e] eqn:Hbuild.
      * intros [= <-]. by exists (d :: rest).
      * destruct (is_Exception e) eqn:He; [| done].
        intros [= <-]. right. exists e. split; [done |]. right.
        by exists (d :: rest).
  - destruct (is_Exception e) eqn:He; [| done].
    intros [= <-]. right. exists e. split; [done |]. by left.
Qed.

(** The two outcomes exclude each other. *)
Lemma construction_fails_not_succeeds lib listing i :
  construction_fails lib listing → ¬ construction_succeeds lib listing i.
Proof.
  intros Hfail (documents & Hsome & Hload & Hbuild).
  destruct Hfail as [Hzero | (e & _ & [Hraise | (documents' & _ & Hload' & Hbuild')])].
  - unfold yields_zero_documents in Hzero. congruence.
  - congruence.
  - assert (documents' = documents) as -> by congruence. congruence.
Qed.

Lemma built_by_succeeds lib listing i :
  built_by lib listing = Some i ↔ construction_succeeds lib listing i.
Proof.
  unfold built_by, construction_succeeds. split.
  - destruct (load_data lib listing) as [[|d rest]|e]; [done | | done].
    destruct (from_documents lib (d :: rest)) as [j|e] eqn:Hbuild; [| done].
    intros [= ->]. by exists (d :: rest).
  - intros (documents & Hsome & -> & Hbuild).
    destruct documents as [|d rest]; [done |]. by rewrite Hbuild.
Qed.

(** The index after [construct_index], however the call ends. *)
Lemma construct_index_index lib fs directory_path st :
  index (snd (construct_index lib fs directory_path st))
  = from_option Some (index st) (built_by lib (fs !! directory_path)).
Proof.
  unfold built_by. run_construct_index.
  destruct (load_data lib (fs !! directory_path)) as [[|d rest]|e].
  - done.
  - destruct (from_documents lib (d :: rest)) as [i|e]; [done |].
    by destruct (is_Exception e).
  - by destruct (is_Exception e).
Qed.

(** ** The reload route *)

Lemma serve_reload lib fs r :
  routed POST "/api/chatbot/reload" r →
  serve lib fs r = dispatch (reload_index_route lib fs).
Proof. intros [Hmethod Hpath]. unfold serve. by rewrite Hpath, Hmethod. Qed.

Lemma reload_index_route_run lib fs st :
  reload_index_route lib fs st
  = match construct_index lib fs "docs"
            {| index := index st;
               logged := logged st ++ [(INFO, "Reloading index via API call...")] |} with
    | (Returned (Some _), st') => (Returned reload_succeeded, st')
    | (Returned None, st') => (Returned reload_failed, st')
    | (Raised e, st') => (Raised e, st')
    end.
Proof.
  unfold reload_index_route. rewrite bind_run. cbn [log]. rewrite bind_run.
  by destruct (construct_index _ _ _ _) as [[[i|]|e] st'].
Qed.

(** C1, as amended. When [construct_index] is called and construction fails
    (the directory yields zero documents, or the reader or the index
    constructor raises an [Exception]), it returns [None] and leaves the
    global [index] as it was: an index that worked before the call is still
    there, and a query after the call gets the answer it would have got
    before it.  The reference is absent after the call exactly when it was
    absent before it, and in that case a query after the call gets the fixed
    unavailability message. *)
Theorem construct_index_failure_keeps_index lib fs directory_path st :
  construction_fails lib (fs !! directory_path) →
  fst (construct_index lib fs directory_path st) = Returned None ∧
  index (snd (construct_index lib fs directory_path st)) = index st ∧
  (∀ lib' input_text,
     fst (generate_response lib' input_text (snd (construct_index lib fs directory_path st)))
     = fst (generate_response lib' input_text st)) ∧
  (index (snd (construct_index lib fs directory_path st)) = None ↔ index st = None) ∧
  (index st = None →
   ∀ lib' input_text,
     fst (generate_response lib' input_text (snd (construct_index lib fs directory_path st)))
     = Returned index_not_available).
Proof.
  intros Hfail.
  destruct (construct_index_failed lib fs directory_path st Hfail) as [entry ->].
  cbn [fst snd index]. split; [done |]. split; [done |]. split; [| split; [done |]].
  - intros lib' input_text. by apply generate_response_reads_index.
  - intros Habsent lib' input_text.
    by rewrite generate_response_absent.
Qed.

(** C5. A POST to the reload route answers with status 200 and the body
    [{"message": "Index reloaded successfully"}] exactly when the
    construction from ["docs"] succeeds, and then the global [index] is the
    new index; when the construction fails (zero documents, or the reader or
    the constructor raises an [Exception]) it answers with status 500 and
    the body [{"error": "Failed to reload index"}]. *)
Theorem reload_index_route_status lib fs r st :
  routed POST "/api/chatbot/reload" r →
  (fst (serve lib fs r st)
   = Returned (make_response
                 (jsonify (JObject {[ "message" := JString "Index reloaded successfully" ]}))
                 200)
   ↔ ∃ i, construction_succeeds lib (fs !! "docs") i) ∧
  (∀ i, construction_succeeds lib (fs !! "docs") i →
        index (snd (serve lib fs r st)) = Some i) ∧
  (construction_fails lib (fs !! "docs") →
   fst (serve lib fs r st)
   = Returned (make_response
                 (jsonify (JObject {[ "error" := JString "Failed to reload index" ]}))
                 500)).
Proof.
  intros Hrouted. rewrite (serve_reload lib fs r Hrouted).
  unfold dispatch. rewrite reload_index_route_run.
  set (st0 := {| index := index st; logged := _ |}).
  split; [split |split].
  - intros Hok.
    pose proof (construct_index_returns lib fs "docs" st0) as Hinv.
    destruct (construct_index lib fs "docs" st0) as [[[i|]|e] st'].
    + exists i. exact (Hinv (Some i) eq_refl).
    + cbn in Hok. discriminate Hok.
    + cbn in Hok. unfold handle_exception in Hok.
      destruct (exc_class e), (is_Exception e); discriminate Hok.
  - intros [i Hbuilt].
    by rewrite (construct_index_built lib fs "docs" st0 i Hbuilt).
  - intros i Hbuilt.
    by rewrite (construct_index_built lib fs "docs" st0 i Hbuilt).
  - intros Hfail.
    by destruct (construct_index_failed lib fs "docs" st0 Hfail) as [entry ->].
Qed.

(** ** The query route *)

Lemma serve_chatbot lib fs r :
  routed POST "/api/chatbot" r →
  serve lib fs r = dispatch (chatbot lib r).
Proof. intros [Hmethod Hpath]. unfold serve. by rewrite Hpath, Hmethod. Qed.

(** The handler once line 62 has read [input_text]. *)
Lemma chatbot_run lib r fields st :
  request_json r = Returned (JObject fields) →
  chatbot lib r st
  = if truthy (default JNull (fields !! "input_text")) then
      match generate_response lib (default JNull (fields !! "input_text")) st with
      | (Returned text, st') => (Returned (answered text), st')
      | (Raised e, st') => (Raised e, st')
      end
    else (Returned input_text_required, st).
Proof.
  intros Hjson. unfold chatbot. rewrite bind_run. unfold call at 1.
  rewrite Hjson. cbn [py_get]. rewrite bind_run. unfold call at 1.
  destruct (truthy _); cbn [negb]; [| done].
  rewrite bind_run. by destruct (generate_response _ _ _) as [[text|e] st'].
Qed.

(** C2. A POST to the query route whose JSON body is an object with
    [input_text] missing or falsy ([None], [False], a zero, an empty string,
    list or dict) is answered with status 400 and exactly the body
    [{"error": "input_text is required"}]; the globals are not touched. *)
Theorem chatbot_input_text_required lib fs r st :
  routed POST "/api/chatbot" r →
  input_text_missing_or_falsy r →
  serve lib fs r st = (Returned input_text_required, st) ∧
  status input_text_required = 400 ∧
  body input_text_required
  = jsonify (JObject {[ "error" := JString "input_text is required" ]}).
Proof.
  intros Hrouted (fields & Hjson & Hfield).
  rewrite (serve_chatbot lib fs r Hrouted). unfold dispatch.
  rewrite (chatbot_run lib r fields st Hjson).
  destruct Hfield as [-> | (v & -> & Hfalsy)]; cbn [from_option id].
  - done.
  - by rewrite Hfalsy.
Qed.

(** C3. A POST to the query route with a truthy [input_text], while the
    global [index] is [None], is answered with status 200 and the fixed
    unavailability message in the [response] field. *)
Theorem chatbot_index_absent lib fs r v st :
  routed POST "/api/chatbot" r →
  input_text_given r v →
  index st = None →
  fst (serve lib fs r st) = Returned (answered index_not_available) ∧
  status (answered index_not_available) = 200 ∧
  body_field (answered index_not_available) "response"
  = Some (JString "Error: Chatbot index is not available. Please try again later.").
Proof.
  intros Hrouted (fields & Hjson & Hfield & Htruthy) Habsent.
  rewrite (serve_chatbot lib fs r Hrouted). unfold dispatch.
  rewrite (chatbot_run lib r fields st Hjson), Hfield. cbn [from_option id].
  rewrite Htruthy, (generate_response_absent lib v st Habsent).
  done.
Qed.

(** C4. A POST to the query route with a truthy [input_text], where the
    question-answering calls on the index raise an [Exception]: the
    exception is caught inside [generate_response], the handler itself
    returns, and the answer is status 200 with the fixed string
    ["Error: Could not generate a response."] in the [response] field. *)
Theorem chatbot_query_raises lib fs r v st i e :
  routed POST "/api/chatbot" r →
  input_text_given r v →
  index st = Some i →
  question_answering lib i v = Raised e →
  is_Exception e = true →
  fst (generate_response lib v st) = Returned could_not_generate ∧
  fst (chatbot lib r st) = Returned (answered could_not_generate) ∧
  fst (serve lib fs r st) = Returned (answered could_not_generate) ∧
  status (answered could_not_generate) = 200 ∧
  body_field (answered could_not_generate) "response"
  = Some (JString "Error: Could not generate a response.").
Proof.
  intros Hrouted (fields & Hjson & Hfield & Htruthy) Hi Hraise He.
  rewrite (serve_chatbot lib fs r Hrouted). unfold dispatch.
  rewrite (chatbot_run lib r fields st Hjson), Hfield. cbn [from_option id].
  rewrite Htruthy, (generate_response_caught lib v st i e Hi Hraise He).
  done.
Qed.

(** C9. When the body of a POST to the query route is absent or is no valid
    JSON, reading [request.json] on line 62 raises: the handler ends with
    that exception before the test of [input_text] on line 63, the globals
    untouched, and whatever the framework answers, its body is not
    [{"error": "input_text is required"}]. *)
Theorem chatbot_unparsed_body_raises lib fs r st :
  routed POST "/api/chatbot" r →
  body_absent_or_invalid r →
  ∃ e, request_json r = Raised e ∧
       chatbot lib r st = (Raised e, st) ∧
       ∀ resp, fst (serve lib fs r st) = Returned resp →
               body resp ≠ body input_text_required.
Proof.
  intros Hrouted Hbody.
  assert (∃ e, request_json r = Raised e ∧
               (exc_class e = BadRequest ∨ exc_class e = UnsupportedMediaType))
    as (e & Hraise & Hclass).
  { unfold request_json.
    destruct (is_json r); [| eauto].
    destruct Hbody as [-> | [raw ->]]; eauto. }
  exists e. split; [done |].
  assert (chatbot lib r st = (Raised e, st)) as Hrun.
  { unfold chatbot. rewrite bind_run. unfold call at 1. by rewrite Hraise. }
  split; [done |].
  intros resp. rewrite (serve_chatbot lib fs r Hrouted). unfold dispatch.
  rewrite Hrun. unfold handle_exception.
  destruct Hclass as [-> | ->]; cbn [fst]; by intros [= <-].
Qed.

(** A body that parses to something other than an object fails on the same
    line, with an [AttributeError]. *)
Lemma chatbot_not_an_object lib r v st :
  request_json r = Returned v →
  (∀ fields, v ≠ JObject fields) →
  ∃ e, exc_class e = AttributeError ∧ chatbot lib r st = (Raised e, st).
Proof.
  intros Hjson Hother. unfold chatbot. rewrite bind_run. unfold call at 1.
  rewrite Hjson, bind_run. unfold call at 1.
  destruct v; try (eexists; split; [| reflexivity]; done).
  by destruct (Hother m).
Qed.

(** ** The liveness route *)

(** C7. Every GET of the hello route is answered with status 200 and one
    fixed payload, whose [success] field is [True] and whose [data] field
    is the empty object, whatever the global [index] holds; the globals are
    left as they were. *)
Theorem hello_fixed_payload :
  ∃ payload,
    status payload = 200 ∧
    body_field payload "success" = Some (JBool true) ∧
    body_field payload "data" = Some (JObject ∅) ∧
    body_field payload "message"
    = Some (JString "Hello from your DeepSeek-powered chatbot!") ∧
    (∀ st, hello st = (Returned payload, st)) ∧
    (∀ lib fs r st,
       routed GET "/api/chatbot/hello" r →
       serve lib fs r st = (Returned payload, st)).
Proof.
  eexists. split; [| split; [| split; [| split; [| split]]]];
    [| | | | intros st; reflexivity |]; [done.. |].
  intros lib fs r st [Hmethod Hpath]. unfold serve. by rewrite Hpath, Hmethod.
Qed.

(** ** Module initialisation *)

Lemma DEEPSEEK_API_KEY_missing config st :
  str_truthy (config_get config "DEEPSEEK_API_KEY") = false →
  DEEPSEEK_API_KEY config st
  = (Raised api_key_required,
     {| index := index st;
        logged := logged st
                  ++ [(ERROR, "DEEPSEEK_API_KEY not found in .env file or environment variables.")] |}).
Proof. intros Hfalsy. unfold DEEPSEEK_API_KEY. by rewrite Hfalsy. Qed.

Lemma DEEPSEEK_API_KEY_present config st :
  str_truthy (config_get config "DEEPSEEK_API_KEY") = true →
  DEEPSEEK_API_KEY config st = (Returned (config_get config "DEEPSEEK_API_KEY"), st).
Proof. intros Htruthy. unfold DEEPSEEK_API_KEY. by rewrite Htruthy. Qed.

(** [construct_index] lets nothing through that is an [Exception]. *)
Lemma construct_index_raises lib fs directory_path st e :
  fst (construct_index lib fs directory_path st) = Raised e →
  is_Exception e = false.
Proof.
  run_construct_index.
  destruct (load_data lib (fs !! directory_path)) as [[|d rest]|e'] eqn:Hload.
  - done.
  - destruct (from_documents lib (d :: rest)) as [i|e'']; [done |].
    destruct (is_Exception e'') eqn:He; [done |]. by intros [= <-].
  - destruct (is_Exception e') eqn:He; [done |]. by intros [= <-].
Qed.


Lemma os_makedirs_exists fs directory_path :
  os_path_exists fs directory_path = true → os_makedirs fs directory_path = fs.
Proof.
  unfold os_path_exists, os_makedirs. intros Hexists%bool_decide_eq_true.
  by destruct Hexists as [entries ->].
Qed.


(** Lines 85-90 run [construct_index] on the disk after [os.makedirs], with
    a warning logged first when the directory was missing. *)
Lemma initialize_index_run lib fs st :
  ∃ st0,
    index st0 = index st ∧
    initialize_index lib fs st
    = match construct_index lib (os_makedirs fs "docs") "docs" st0 with
      | (Returned _, st') => (Returned (os_makedirs fs "docs"), st')
      | (Raised e, st') => (Raised e, st')
      end.
Proof.
  unfold initialize_index. rewrite bind_run.
  destruct (os_path_exists fs "docs") eqn:Hexists; cbn [negb].
  - exists st. split; [done |].
    rewrite (os_makedirs_exists fs "docs" Hexists). unfold ret at 1.
    rewrite bind_run. by destruct (construct_index _ _ _ _) as [[built|e] st'].
  - rewrite bind_run. cbn [log ret]. rewrite bind_run.
    match goal with
    | |- context [construct_index _ _ _ ?st1] => exists st1
    end.
    split; [done |].
    by destruct (construct_index _ _ _ _) as [[built|e] st'].
Qed.

Lemma module_init_run config lib fs st :
  str_truthy (config_get config "DEEPSEEK_API_KEY") = true →
  ∃ st0,
    index st0 = None ∧
    module_init config lib fs st
    = match construct_index lib (os_makedirs fs "docs") "docs" st0 with
      | (Returned _, st') =>
          (Returned {| cors_origins := [config_get_default config "CLIENT_URL" "*"];
                       Settings_llm := {| model := "deepseek-chat";
                                          api_key := config_get config "DEEPSEEK_API_KEY";
                                          temperature := (7, 10)%Z |};
                       disk := os_makedirs fs "docs" |}, st')
      | (Raised e, st') => (Raised e, st')
      end.
Proof.
  intros Htruthy. unfold module_init. cbn zeta.
  rewrite bind_run, (DEEPSEEK_API_KEY_present config st Htruthy).
  rewrite bind_run. cbn [set_index]. rewrite bind_run.
  destruct (initialize_index_run lib fs {| index := None; logged := logged st |})
    as (st0 & Hindex & ->).
  exists st0. split; [done |].
  by destruct (construct_index _ _ _ _) as [[built|e] st'].
Qed.

Lemma os_path_exists_on_false os fs directory_path :
  os_path_exists_on os fs directory_path = false →
  (directory_path ∉ other_paths os) ∧ fs !! directory_path = None.
Proof.
  unfold os_path_exists_on, os_path_exists.
  intros [Hother Hdir]%orb_false_iff.
  apply bool_decide_eq_false in Hother, Hdir. split; [done |].
  destruct (fs !! directory_path) as [entries|]; [| done].
  destruct Hdir. by exists entries.
Qed.

(** The disk on which lines 85-90 run [construct_index], when the
    directory is there or its creation is granted. *)
Lemma os_makedirs_on_granted os fs directory_path :
  os_path_exists_on os fs directory_path = false →
  makedirs_refused os = None →
  os_makedirs_on os fs directory_path = Returned (<[directory_path := []]> fs).
Proof.
  intros [Hother Hdir]%os_path_exists_on_false Hgranted.
  unfold os_makedirs_on. rewrite Hdir, Hgranted.
  by rewrite bool_decide_eq_false_2.
Qed.

(** A refused creation ends the module body with the [OSError], the disk as
    it was. *)
Lemma module_init_on_refused os config lib fs st message :
  str_truthy (config_get config "DEEPSEEK_API_KEY") = true →
  os_path_exists_on os fs "docs" = false →
  makedirs_refused os = Some message →
  ∃ st', module_init_on os config lib fs st
         = (Raised (PyExc (LibraryError "PermissionError") message), st', fs).
Proof.
  intros Htruthy Hmissing Hrefused. unfold module_init_on. cbn zeta.
  rewrite (DEEPSEEK_API_KEY_present config st Htruthy), Hmissing. cbn [negb].
  destruct (os_path_exists_on_false os fs "docs" Hmissing) as [Hother Hdir].
  unfold os_makedirs_on. rewrite Hdir, Hrefused, bool_decide_eq_false_2; [| done].
  by eexists.
Qed.

Lemma module_init_on_run os config lib fs st :
  str_truthy (config_get config "DEEPSEEK_API_KEY") = true →
  os_path_exists_on os fs "docs" = true ∨ makedirs_refused os = None →
  ∃ st0,
    index st0 = None ∧
    module_init_on os config lib fs st
    = match construct_index lib
              (if os_path_exists_on os fs "docs" then fs else <["docs" := []]> fs)
              "docs" st0 with
      | (Returned _, st') =>
          (Returned {| cors_origins := [config_get_default config "CLIENT_URL" "*"];
                       Settings_llm := {| model := "deepseek-chat";
                                          api_key := config_get config "DEEPSEEK_API_KEY";
                                          temperature := (7, 10)%Z |};
                       disk := if os_path_exists_on os fs "docs" then fs
                               else <["docs" := []]> fs |},
           st', if os_path_exists_on os fs "docs" then fs else <["docs" := []]> fs)
      | (Raised e, st') =>
          (Raised e, st', if os_path_exists_on os fs "docs" then fs else <["docs" := []]> fs)
      end.
Proof.
  intros Htruthy Hgranted. unfold module_init_on. cbn zeta.
  rewrite (DEEPSEEK_API_KEY_present config st Htruthy).
  destruct (os_path_exists_on os fs "docs") eqn:Hexists; cbn [negb].
  - eexists. split; [| reflexivity]. done.
  - destruct Hgranted as [? | Hgranted]; [done |].
    rewrite (os_makedirs_on_granted os fs "docs" Hexists Hgranted).
    eexists. split; [| reflexivity]. done.
Qed.

(** Over the granting operating system the module body is [module_init]. *)
Lemma module_init_granting config lib fs st :
  fst (module_init_on granting config lib fs st) = module_init config lib fs st.
Proof.
  destruct (str_truthy (config_get config "DEEPSEEK_API_KEY")) eqn:Htruthy.
  - destruct (module_init_on_run granting config lib fs st Htruthy (or_intror eq_refl))
      as (st0 & _ & Hon).
    assert (os_path_exists_on granting fs "docs" = os_path_exists fs "docs") as Hsame
      by done.
    assert ((if os_path_exists_on granting fs "docs" then fs else <["docs" := []]> fs)
            = os_makedirs fs "docs") as Hdisk.
    { rewrite Hsame. destruct (os_path_exists fs "docs") eqn:Hexists.
      - by rewrite os_makedirs_exists.
      - unfold os_path_exists in Hexists. apply bool_decide_eq_false in Hexists.
        unfold os_makedirs. destruct (fs !! "docs") as [entries|]; [| done].
        destruct Hexists. by exists entries. }
    rewrite Hdisk in Hon. clear Hon.
    unfold module_init_on, module_init. cbn zeta.
    rewrite bind_run, (DEEPSEEK_API_KEY_present config st Htruthy).
    rewrite bind_run. cbn [set_index snd]. rewrite bind_run.
    unfold initialize_index. rewrite bind_run, Hsame.
    destruct (os_path_exists fs "docs") eqn:Hexists; cbn [negb].
    + unfold ret at 1. rewrite bind_run.
      by destruct (construct_index _ _ _ _) as [[built|e] st'].
    + rewrite bind_run. cbn [log ret snd]. rewrite bind_run.
      assert (os_makedirs_on granting fs "docs" = Returned (os_makedirs fs "docs")) as ->.
      { unfold os_makedirs_on, os_makedirs.
        unfold os_path_exists in Hexists. apply bool_decide_eq_false in Hexists.
        destruct (fs !! "docs") as [entries|]; [destruct Hexists; by exists entries |].
        done. }
      by destruct (construct_index _ _ _ _) as [[built|e] st'].
  - unfold module_init_on, module_init. cbn zeta.
    by rewrite bind_run, (DEEPSEEK_API_KEY_missing config st Htruthy).
Qed.

(** C6. Without the credential in the configuration the module body raises
    [ValueError("DeepSeek API key is required")] at the check and nothing is
    served; so it does for a credential bound to [None] or to the empty
    string.  With a credential present the check returns it and the module
    body goes on to the end: whenever the ["docs"] directory is there or the
    operating system grants its creation, and the construction of the index
    succeeds or fails (no library call is cut short by something that is no
    [Exception]), the module body ends normally, with a process whose
    language model holds that credential and with the index that the
    construction built. *)
Theorem startup_requires_api_key os config lib fs st :
  (config !! "DEEPSEEK_API_KEY" = None →
   fst (fst (module_init_on os config lib fs st)) = Raised api_key_required ∧
   fst (module_init config lib fs st) = Raised api_key_required) ∧
  (str_truthy (config_get config "DEEPSEEK_API_KEY") = false →
   fst (fst (module_init_on os config lib fs st)) = Raised api_key_required ∧
   fst (module_init config lib fs st) = Raised api_key_required) ∧
  (∀ key, config !! "DEEPSEEK_API_KEY" = Some (Some key) → key ≠ "" →
     DEEPSEEK_API_KEY config st = (Returned (Some key), st) ∧
     (os_path_exists_on os fs "docs" = true ∨ makedirs_refused os = None →
      construction_fails lib
        ((if os_path_exists_on os fs "docs" then fs else <["docs" := []]> fs) !! "docs") ∨
      (∃ i, construction_succeeds lib
              ((if os_path_exists_on os fs "docs" then fs else <["docs" := []]> fs) !! "docs")
              i) →
      ∃ p st',
        module_init_on os config lib fs st
        = (Returned p, st', if os_path_exists_on os fs "docs" then fs else <["docs" := []]> fs) ∧
        api_key (Settings_llm p) = Some key ∧
        disk p = (if os_path_exists_on os fs "docs" then fs else <["docs" := []]> fs) ∧
        index st'
        = built_by lib
            ((if os_path_exists_on os fs "docs" then fs else <["docs" := []]> fs) !! "docs"))).
Proof.
  assert (str_truthy (config_get config "DEEPSEEK_API_KEY") = false →
          fst (fst (module_init_on os config lib fs st)) = Raised api_key_required ∧
          fst (module_init config lib fs st) = Raised api_key_required) as Hmissing.
  { intros Hfalsy. split.
    - unfold module_init_on. cbn zeta.
      by rewrite (DEEPSEEK_API_KEY_missing config st Hfalsy).
    - unfold module_init. cbn zeta.
      by rewrite bind_run, (DEEPSEEK_API_KEY_missing config st Hfalsy). }
  split; [| split; [done |]].
  - intros Habsent. apply Hmissing. unfold config_get. by rewrite Habsent.
  - intros key Hkey Hnonempty.
    assert (config_get config "DEEPSEEK_API_KEY" = Some key) as Hget.
    { unfold config_get. by rewrite Hkey. }
    assert (str_truthy (config_get config "DEEPSEEK_API_KEY") = true) as Htruthy.
    { rewrite Hget. cbn. by destruct (String.eqb_spec key ""). }
    split.
    + by rewrite (DEEPSEEK_API_KEY_present config st Htruthy), Hget.
    + intros Hgranted Hended.
      destruct (module_init_on_run os config lib fs st Htruthy Hgranted)
        as (st0 & Hindex & ->).
      set (fs' := if os_path_exists_on os fs "docs" then fs else <["docs" := []]> fs) in *.
      destruct Hended as [Hfail | [i Hbuilt]].
      * destruct (construct_index_failed lib fs' "docs" st0 Hfail) as [entry ->].
        eexists _, _. split; [reflexivity |]. cbn [Settings_llm api_key disk index].
        split; [done |]. split; [done |].
        rewrite Hindex.
        destruct (built_by lib (fs' !! "docs")) as [i|] eqn:Hb; [| done].
        apply built_by_succeeds in Hb.
        by destruct (construction_fails_not_succeeds _ _ i Hfail).
      * rewrite (construct_index_built lib fs' "docs" st0 i Hbuilt).
        eexists _, _. split; [reflexivity |]. cbn [Settings_llm api_key disk index].
        split; [done |]. split; [done |].
        by rewrite (proj2 (built_by_succeeds _ _ _) Hbuilt).
Qed.


(** ** The theorems at concrete inputs *)

(** C1 as the specification states it fails: the reader gives zero documents
    for the empty directory, so the rebuild fails, and yet the index that
    was loaded before is still the global [index], and the next question is
    answered from it instead of getting the unavailability message. *)
Lemma failed_rebuild_keeps_index_counterexample :
  yields_zero_documents Sample.quiet_lib (Sample.empty_docs !! "docs") ∧
  construct_index Sample.quiet_lib Sample.empty_docs "docs" Sample.loaded
  = (Returned None,
     {| index := Some (VectorStoreIndex 7);
        logged := [(INFO, "Constructing index from directory: docs");
                   (ERROR, "No documents found in directory: docs")] |}) ∧
  index (snd (construct_index Sample.quiet_lib Sample.empty_docs "docs" Sample.loaded))
  ≠ None ∧
  fst (generate_response Sample.quiet_lib (JString "When do you open?")
         (snd (construct_index Sample.quiet_lib Sample.empty_docs "docs" Sample.loaded)))
  = Returned "We open at nine." ∧
  fst (generate_response Sample.quiet_lib (JString "When do you open?")
         (snd (construct_index Sample.quiet_lib Sample.empty_docs "docs" Sample.loaded)))
  ≠ Returned index_not_available.
Proof.
  split; [vm_compute; reflexivity |].
  split; [vm_compute; reflexivity |].
  split; [vm_compute; discriminate |].
  split; [vm_compute; reflexivity |].
  vm_compute. discriminate.
Qed.

(** The same on the reload route, with the index constructor raising. *)
Example failed_reload_keeps_index :
  construction_raises Sample.failing_lib (Sample.one_doc !! "docs") ∧
  fst (serve Sample.failing_lib Sample.one_doc Sample.reload Sample.loaded)
  = Returned reload_failed ∧
  index (snd (serve Sample.failing_lib Sample.one_doc Sample.reload Sample.loaded))
  = Some (VectorStoreIndex 7).
Proof.
  split; [| split; vm_compute; reflexivity].
  exists (PyExc (LibraryError "APIConnectionError") "Connection error.").
  split; [reflexivity |]. right.
  exists ["Opening hours: 9 to 17."].
  split; [discriminate |]. split; vm_compute; reflexivity.
Qed.

Lemma construct_index_failure_keeps_index_witness :
  construction_fails Sample.lib (Sample.empty_docs !! "docs") ∧
  fst (construct_index Sample.lib Sample.empty_docs "docs" Sample.loaded) = Returned None ∧
  index (snd (construct_index Sample.lib Sample.empty_docs "docs" Sample.loaded))
  = index Sample.loaded.
Proof.
  assert (construction_fails Sample.lib (Sample.empty_docs !! "docs")) as Hfail.
  { right. exists (PyExc ValueError "No files found in docs.").
    split; [reflexivity |]. left. vm_compute. reflexivity. }
  pose proof (construct_index_failure_keeps_index
                Sample.lib Sample.empty_docs "docs" Sample.loaded Hfail)
    as (Hreturned & Hkept & _).
  split; [exact Hfail |]. split; [exact Hreturned | exact Hkept].
Defined.

Lemma chatbot_input_text_required_witness :
  routed POST "/api/chatbot" (Sample.ask (JsonBody (JObject {[ "input_text" := JString "" ]}))) ∧
  input_text_missing_or_falsy (Sample.ask (JsonBody (JObject {[ "input_text" := JString "" ]}))) ∧
  serve Sample.lib Sample.one_doc
    (Sample.ask (JsonBody (JObject {[ "input_text" := JString "" ]}))) Sample.loaded
  = (Returned input_text_required, Sample.loaded).
Proof.
  assert (routed POST "/api/chatbot"
            (Sample.ask (JsonBody (JObject {[ "input_text" := JString "" ]})))) as Hrouted
    by (split; reflexivity).
  assert (input_text_missing_or_falsy
            (Sample.ask (JsonBody (JObject {[ "input_text" := JString "" ]})))) as Hfalsy.
  { exists {[ "input_text" := JString "" ]}. split; [reflexivity |].
    right. exists (JString ""). split; [vm_compute; reflexivity | reflexivity]. }
  split; [exact Hrouted |]. split; [exact Hfalsy |].
  exact (proj1 (chatbot_input_text_required
                  Sample.lib Sample.one_doc _ Sample.loaded Hrouted Hfalsy)).
Defined.

Lemma chatbot_index_absent_witness :
  routed POST "/api/chatbot" Sample.question ∧
  input_text_given Sample.question (JString "When do you open?") ∧
  index fresh_interpreter = None ∧
  fst (serve Sample.lib Sample.one_doc Sample.question fresh_interpreter)
  = Returned (answered index_not_available).
Proof.
  assert (routed POST "/api/chatbot" Sample.question) as Hrouted
    by (split; reflexivity).
  assert (input_text_given Sample.question (JString "When do you open?")) as Hgiven.
  { exists {[ "input_text" := JString "When do you open?" ]}.
    split; [reflexivity |]. split; [vm_compute; reflexivity | reflexivity]. }
  split; [exact Hrouted |]. split; [exact Hgiven |]. split; [reflexivity |].
  exact (proj1 (chatbot_index_absent Sample.lib Sample.one_doc Sample.question
                  (JString "When do you open?") fresh_interpreter
                  Hrouted Hgiven eq_refl)).
Defined.

Lemma chatbot_query_raises_witness :
  routed POST "/api/chatbot" (Sample.ask (JsonBody (JObject {[ "input_text" := JInt 5 ]}))) ∧
  input_text_given (Sample.ask (JsonBody (JObject {[ "input_text" := JInt 5 ]}))) (JInt 5) ∧
  index Sample.loaded = Some (VectorStoreIndex 7) ∧
  question_answering Sample.lib (VectorStoreIndex 7) (JInt 5)
  = Raised (PyExc (LibraryError "TypeError") "query must be a string") ∧
  is_Exception (PyExc (LibraryError "TypeError") "query must be a string") = true ∧
  fst (serve Sample.lib Sample.one_doc
         (Sample.ask (JsonBody (JObject {[ "input_text" := JInt 5 ]}))) Sample.loaded)
  = Returned (answered could_not_generate).
Proof.
  assert (routed POST "/api/chatbot"
            (Sample.ask (JsonBody (JObject {[ "input_text" := JInt 5 ]})))) as Hrouted
    by (split; reflexivity).
  assert (input_text_given
            (Sample.ask (JsonBody (JObject {[ "input_text" := JInt 5 ]}))) (JInt 5)) as Hgiven.
  { exists {[ "input_text" := JInt 5 ]}.
    split; [reflexivity |]. split; [vm_compute; reflexivity | reflexivity]. }
  split; [exact Hrouted |]. split; [exact Hgiven |].
  split; [reflexivity |]. split; [reflexivity |]. split; [reflexivity |].
  exact (proj1 (proj2 (proj2 (chatbot_query_raises
                  Sample.lib Sample.one_doc _ (JInt 5) Sample.loaded (VectorStoreIndex 7)
                  (PyExc (LibraryError "TypeError") "query must be a string")
                  Hrouted Hgiven eq_refl eq_refl eq_refl)))).
Defined.

Lemma reload_index_route_status_witness :
  routed POST "/api/chatbot/reload" Sample.reload ∧
  construction_succeeds Sample.lib (Sample.one_doc !! "docs") (VectorStoreIndex 1) ∧
  fst (serve Sample.lib Sample.one_doc Sample.reload fresh_interpreter)
  = Returned (make_response
                (jsonify (JObject {[ "message" := JString "Index reloaded successfully" ]}))
                200) ∧
  index (snd (serve Sample.lib Sample.one_doc Sample.reload fresh_interpreter))
  = Some (VectorStoreIndex 1) ∧
  construction_fails Sample.lib (Sample.empty_docs !! "docs") ∧
  fst (serve Sample.lib Sample.empty_docs Sample.reload Sample.loaded)
  = Returned (make_response
                (jsonify (JObject {[ "error" := JString "Failed to reload index" ]}))
                500).
Proof.
  assert (routed POST "/api/chatbot/reload" Sample.reload) as Hrouted
    by (split; reflexivity).
  assert (construction_succeeds Sample.lib (Sample.one_doc !! "docs") (VectorStoreIndex 1))
    as Hbuilt.
  { exists ["Opening hours: 9 to 17."].
    split; [discriminate |]. split; vm_compute; reflexivity. }
  assert (construction_fails Sample.lib (Sample.empty_docs !! "docs")) as Hfail.
  { right. exists (PyExc ValueError "No files found in docs.").
    split; [reflexivity |]. left. vm_compute. reflexivity. }
  pose proof (reload_index_route_status
                Sample.lib Sample.one_doc Sample.reload fresh_interpreter Hrouted)
    as (Hiff & Hindex & _).
  pose proof (reload_index_route_status
                Sample.lib Sample.empty_docs Sample.reload Sample.loaded Hrouted)
    as (_ & _ & Hfailed).
  split; [exact Hrouted |]. split; [exact Hbuilt |].
  split; [exact (proj2 Hiff (ex_intro _ _ Hbuilt)) |].
  split; [exact (Hindex _ Hbuilt) |].
  split; [exact Hfail |]. exact (Hfailed Hfail).
Defined.

Lemma startup_requires_api_key_witness :
  ((∅ : gmap string (option string)) !! "DEEPSEEK_API_KEY" = None ∧
   fst (fst (module_init_on granting ∅ Sample.lib Sample.one_doc fresh_interpreter))
   = Raised api_key_required) ∧
  (Sample.dotenv !! "DEEPSEEK_API_KEY" = Some (Some "sk-test") ∧
   "sk-test" ≠ "" ∧
   (os_path_exists_on (OperatingSystem ∅ (Some "Permission denied")) Sample.one_doc "docs"
    = true ∨
    makedirs_refused (OperatingSystem ∅ (Some "Permission denied")) = None) ∧
   construction_succeeds Sample.lib (Sample.one_doc !! "docs") (VectorStoreIndex 1) ∧
   ∃ p st',
     module_init_on (OperatingSystem ∅ (Some "Permission denied"))
       Sample.dotenv Sample.lib Sample.one_doc fresh_interpreter
     = (Returned p, st', Sample.one_doc) ∧
     api_key (Settings_llm p) = Some "sk-test" ∧
     disk p = Sample.one_doc ∧
     index st' = Some (VectorStoreIndex 1)).
Proof.
  assert ((∅ : gmap string (option string)) !! "DEEPSEEK_API_KEY" = None) as Habsent
    by reflexivity.
  assert (Sample.dotenv !! "DEEPSEEK_API_KEY" = Some (Some "sk-test")) as Hkey
    by (vm_compute; reflexivity).
  assert ("sk-test" ≠ "") as Hnonempty by discriminate.
  assert (os_path_exists_on (OperatingSystem ∅ (Some "Permission denied"))
            Sample.one_doc "docs" = true ∨
          makedirs_refused (OperatingSystem ∅ (Some "Permission denied")) = None)
    as Hgranted by (left; vm_compute; reflexivity).
  assert (construction_succeeds Sample.lib (Sample.one_doc !! "docs") (VectorStoreIndex 1))
    as Hbuilt.
  { exists ["Opening hours: 9 to 17."].
    split; [discriminate |]. split; vm_compute; reflexivity. }
  split.
  - split; [exact Habsent |].
    exact (proj1 (proj1 (startup_requires_api_key
                           granting ∅ Sample.lib Sample.one_doc fresh_interpreter)
                    Habsent)).
  - split; [exact Hkey |]. split; [exact Hnonempty |].
    split; [exact Hgranted |]. split; [exact Hbuilt |].
    exact (proj2 (proj2 (proj2 (startup_requires_api_key
                                  (OperatingSystem ∅ (Some "Permission denied"))
                                  Sample.dotenv Sample.lib Sample.one_doc fresh_interpreter))
                    "sk-test" Hkey Hnonempty)
             Hgranted (or_intror (ex_intro _ (VectorStoreIndex 1) Hbuilt))).
Defined.

(** The module body at the sample inputs: it ends normally, with the index
    built from the one file. *)
Example startup_one_doc :
  fst (module_init Sample.dotenv Sample.lib Sample.one_doc fresh_interpreter)
  = Returned {| cors_origins := [Some "*"];
                Settings_llm := {| model := "deepseek-chat"; api_key := Some "sk-test";
                                   temperature := (7, 10)%Z |};
                disk := Sample.one_doc |} ∧
  index (snd (module_init Sample.dotenv Sample.lib Sample.one_doc fresh_interpreter))
  = Some (VectorStoreIndex 1).
Proof. split; vm_compute; reflexivity. Qed.


Lemma chatbot_unparsed_body_raises_witness :
  routed POST "/api/chatbot" (Sample.ask (MalformedBody "{input_text:")) ∧
  body_absent_or_invalid (Sample.ask (MalformedBody "{input_text:")) ∧
  ∃ e, request_json (Sample.ask (MalformedBody "{input_text:")) = Raised e ∧
       chatbot Sample.lib (Sample.ask (MalformedBody "{input_text:")) Sample.loaded
       = (Raised e, Sample.loaded) ∧
       ∀ resp,
         fst (serve Sample.lib Sample.one_doc
                (Sample.ask (MalformedBody "{input_text:")) Sample.loaded)
         = Returned resp →
         body resp ≠ body input_text_required.
Proof.
  assert (routed POST "/api/chatbot" (Sample.ask (MalformedBody "{input_text:")))
    as Hrouted by (split; reflexivity).
  assert (body_absent_or_invalid (Sample.ask (MalformedBody "{input_text:"))) as Hbody
    by (right; eexists; reflexivity).
  split; [exact Hrouted |]. split; [exact Hbody |].
  exact (chatbot_unparsed_body_raises Sample.lib Sample.one_doc _ Sample.loaded
           Hrouted Hbody).
Defined.

(** What the framework answers to the two kinds of unparsed body, and to a
    body that is JSON but no object. *)
Example unparsed_body_answers :
  fst (serve Sample.lib Sample.one_doc (Sample.ask EmptyBody) Sample.loaded)
  = Returned (make_response (error_page "Bad Request") 400) ∧
  fst (serve Sample.lib Sample.one_doc (Sample.ask (MalformedBody "{input_text:")) Sample.loaded)
  = Returned (make_response (error_page "Bad Request") 400) ∧
  fst (serve Sample.lib Sample.one_doc (Sample.ask (JsonBody (JArray []))) Sample.loaded)
  = Returned (make_response (error_page "Internal Server Error") 500).
Proof. repeat split. Qed.

(** ** Further properties of the query route *)

(** Every way [generate_response] can end, with the globals it leaves. *)
Lemma generate_response_cases lib input_text st :
  (∃ text, generate_response lib input_text st = (Returned text, st)) ∨
  (∃ text entry,
     generate_response lib input_text st
     = (Returned text, {| index := index st; logged := logged st ++ [(ERROR, entry)] |})) ∨
  (∃ e, is_Exception e = false ∧ generate_response lib input_text st = (Raised e, st)).
Proof.
  destruct (index st) as [i|] eqn:Hi; rewrite <- Hi.
  - destruct (question_answering lib i input_text) as [answer|e] eqn:Hq.
    + left. exists answer. by apply (generate_response_answer _ _ _ i).
    + destruct (is_Exception e) eqn:He.
      * right; left. eexists _, _. by apply (generate_response_caught _ _ _ i e).
      * right; right. exists e. split; [done |].
        by apply (generate_response_passed _ _ _ i).
  - right; left. eexists _, _. rewrite (generate_response_absent _ _ _ Hi).
    by rewrite Hi.
Qed.

(** X1. The normal path of the query route: with an index loaded and the
    library answering, a POST with a truthy [input_text] (of any JSON type,
    it is not checked to be a string) hands that value to the library and
    answers 200 with the library's text in the [response] field; neither the
    index nor the log is touched. *)
Theorem chatbot_answers lib fs r v st i answer :
  routed POST "/api/chatbot" r →
  input_text_given r v →
  index st = Some i →
  question_answering lib i v = Returned answer →
  serve lib fs r st = (Returned (answered answer), st) ∧
  status (answered answer) = 200 ∧
  body_field (answered answer) "response" = Some (JString answer).
Proof.
  intros Hrouted (fields & Hjson & Hfield & Htruthy) Hi Hanswer.
  rewrite (serve_chatbot lib fs r Hrouted). unfold dispatch.
  rewrite (chatbot_run lib r fields st Hjson), Hfield. cbn [from_option id].
  rewrite Htruthy, (generate_response_answer lib v st i answer Hi Hanswer).
  split; [done |]. split; [done |].
  unfold body_field, answered. cbn [body]. apply lookup_singleton_eq.
Qed.

(** X2. Whatever the library and the index do, a POST to the query route
    whose body is a JSON object has two possible answers: the 400 of the
    validation, or a 200 with some text in [response]; it is never a 5xx,
    and only what is no [Exception] can come out of the handler.  The
    request leaves the index as it is and adds at most one ERROR line to
    the log. *)
Theorem chatbot_object_body_answers lib fs r fields st :
  routed POST "/api/chatbot" r →
  request_json r = Returned (JObject fields) →
  match fst (serve lib fs r st) with
  | Returned resp => resp = input_text_required ∨ ∃ text, resp = answered text
  | Raised e => is_Exception e = false
  end ∧
  (snd (serve lib fs r st) = st ∨
   ∃ entry, snd (serve lib fs r st)
            = {| index := index st; logged := logged st ++ [(ERROR, entry)] |}).
Proof.
  intros Hrouted Hjson.
  rewrite (serve_chatbot lib fs r Hrouted). unfold dispatch.
  rewrite (chatbot_run lib r fields st Hjson).
  destruct (truthy _); [| by split; left].
  destruct (generate_response_cases lib (default JNull (fields !! "input_text")) st)
    as [(text & ->) | [(text & entry & ->) | (e & He & ->)]]; cbn [fst snd].
  - split; [right; by exists text | by left].
  - split; [right; by exists text | right; exists entry; reflexivity].
  - split; [| by left]. unfold handle_exception.
    destruct e as [c msg]. unfold is_Exception in *. cbn [exc_class] in *.
    by destruct c.
Qed.

(** X3. A body that is valid JSON but no object ([null], a number, a string,
    a list) is not answered by the validation: [.get] on line 62 raises
    [AttributeError], which nothing in the handler catches, so the handler
    ends with it, having touched no global; the request is answered with
    status 500, and the index is as it was. *)
Theorem chatbot_body_not_an_object lib fs r v st :
  routed POST "/api/chatbot" r →
  request_json r = Returned v →
  (∀ fields, v ≠ JObject fields) →
  (∃ e, exc_class e = AttributeError ∧ chatbot lib r st = (Raised e, st)) ∧
  ∃ resp st',
    serve lib fs r st = (Returned resp, st') ∧
    status resp = 500 ∧
    index st' = index st.
Proof.
  intros Hrouted Hjson Hother.
  destruct (chatbot_not_an_object lib r v st Hjson Hother) as (e & Hclass & Hraised).
  split; [by exists e |].
  rewrite (serve_chatbot lib fs r Hrouted). unfold dispatch. rewrite Hraised.
  unfold handle_exception, is_Exception. rewrite Hclass.
  by eexists _, _.
Qed.

(** ** Further properties of [construct_index] and the reload route *)

(** X4. The three ways [construct_index] can end, each exactly when its
    cause holds.  It returns the index [i] exactly when the construction
    succeeds with [i]; it returns [None] exactly when the construction
    fails; it raises [e] exactly when [e] is no [Exception] and the reader,
    or the constructor on the documents read, raises it.  The global
    [index] afterwards is the returned index in the first case and is
    unchanged in the other two. *)
Theorem construct_index_outcome lib fs directory_path st :
  (∀ i, fst (construct_index lib fs directory_path st) = Returned (Some i)
        ↔ construction_succeeds lib (fs !! directory_path) i) ∧
  (fst (construct_index lib fs directory_path st) = Returned None
   ↔ construction_fails lib (fs !! directory_path)) ∧
  (∀ e, fst (construct_index lib fs directory_path st) = Raised e
        ↔ is_Exception e = false ∧
          (load_data lib (fs !! directory_path) = Raised e ∨
           ∃ documents, documents ≠ [] ∧
                        load_data lib (fs !! directory_path) = Returned documents ∧
                        from_documents lib documents = Raised e)) ∧
  index (snd (construct_index lib fs directory_path st))
  = match fst (construct_index lib fs directory_path st) with
    | Returned (Some i) => Some i
    | Returned None | Raised _ => index st
    end.
Proof.
  pose proof (construct_index_returns lib fs directory_path st) as Hreturns.
  pose proof (construct_index_raises lib fs directory_path st) as Hraises.
  split; [| split; [| split]].
  - intros i. split; [apply (Hreturns (Some i)) |].
    intros Hbuilt. by rewrite (construct_index_built lib fs directory_path st i Hbuilt).
  - split; [apply (Hreturns None) |].
    intros Hfail.
    by destruct (construct_index_failed lib fs directory_path st Hfail) as [entry ->].
  - intros e. split.
    + intros Hraised. split; [by apply Hraises |].
      specialize (Hraises e Hraised). revert Hraised. run_construct_index.
      destruct (load_data lib (fs !! directory_path)) as [[|d rest]|e0] eqn:Hload;
        [done | |].
      * destruct (from_documents lib (d :: rest)) as [i|e1] eqn:Hbuild; [done |].
        destruct (is_Exception e1); [done |].
        intros [= <-]. right. by exists (d :: rest).
      * destruct (is_Exception e0); [done |]. intros [= <-]. by left.
    + intros (He & [Hload | (documents & Hsome & Hload & Hbuild)]);
        run_construct_index; rewrite Hload.
      * by rewrite He.
      * destruct documents as [|d rest]; [done |]. by rewrite Hbuild, He.
  - rewrite construct_index_index. unfold built_by. run_construct_index.
    destruct (load_data lib (fs !! directory_path)) as [[|d rest]|e0]; [done | |].
    + destruct (from_documents lib (d :: rest)) as [i|e1]; [done |].
      by destruct (is_Exception e1).
    + by destruct (is_Exception e0).
Qed.

(** X5. Rebuild, then ask.  After a successful [construct_index] the global
    [index] is the new handle, whatever it was before, and the next
    [generate_response] is answered from that handle: the library's text
    when the question-answering calls return, the fixed error string when
    they raise an [Exception]. *)
Theorem rebuild_then_query lib fs directory_path st i :
  construction_succeeds lib (fs !! directory_path) i →
  index (snd (construct_index lib fs directory_path st)) = Some i ∧
  ∀ lib' input_text,
    fst (generate_response lib' input_text (snd (construct_index lib fs directory_path st)))
    = match question_answering lib' i input_text with
      | Returned answer => Returned answer
      | Raised e => if is_Exception e then Returned could_not_generate else Raised e
      end.
Proof.
  intros Hbuilt.
  rewrite (construct_index_built lib fs directory_path st i Hbuilt). cbn [snd index].
  split; [done |]. intros lib' input_text.
  set (st' := {| index := Some i; logged := _ |}).
  destruct (question_answering lib' i input_text) as [answer|e] eqn:Hq.
  - by rewrite (generate_response_answer lib' input_text st' i answer).
  - destruct (is_Exception e) eqn:He.
    + by rewrite (generate_response_caught lib' input_text st' i e).
    + by rewrite (generate_response_passed lib' input_text st' i e).
Qed.

(** X6. A POST to the reload route has exactly two answers: status 200 with
    the body [{"message": "Index reloaded successfully"}], and status 500
    with the body [{"error": "Failed to reload index"}]; the request body
    and its content type play no part, and no [Exception] of the library
    reaches the framework. *)
Theorem reload_index_route_answers lib fs r st :
  routed POST "/api/chatbot/reload" r →
  match fst (serve lib fs r st) with
  | Returned resp =>
      resp = (make_response
              (jsonify (JObject {[ "message" := JString "Index reloaded successfully" ]}))
              200) ∨
      resp = (make_response
              (jsonify (JObject {[ "error" := JString "Failed to reload index" ]}))
              500)
  | Raised e => is_Exception e = false
  end ∧
  ∀ r', routed POST "/api/chatbot/reload" r' →
        serve lib fs r' st = serve lib fs r st.
Proof.
  intros Hrouted. split.
  - rewrite (serve_reload lib fs r Hrouted). unfold dispatch.
    rewrite reload_index_route_run.
    set (st0 := {| index := index st; logged := _ |}).
    pose proof (construct_index_raises lib fs "docs" st0) as Hraises.
    destruct (construct_index lib fs "docs" st0) as [[[i|]|e] st']; cbn [fst].
    + by left.
    + by right.
    + specialize (Hraises e eq_refl). unfold handle_exception. rewrite Hraises.
      destruct e as [c msg]. unfold is_Exception in Hraises. cbn [exc_class] in *.
      by destruct c.
  - intros r' Hrouted'.
    by rewrite (serve_reload lib fs r Hrouted), (serve_reload lib fs r' Hrouted').
Qed.

(** ** The index over a run of requests *)

Lemma dispatch_state (h : M http_response) st :
  snd (dispatch h st) = snd (h st).
Proof. unfold dispatch. by destruct (h st) as [[resp|e] st']. Qed.

Lemma chatbot_index lib r st :
  index (snd (chatbot lib r st)) = index st.
Proof.
  unfold chatbot. rewrite bind_run. unfold call at 1.
  destruct (request_json r) as [request_body|e]; [| done].
  rewrite bind_run. unfold call at 1.
  destruct (py_get request_body "input_text") as [input_text|e]; [| done].
  destruct (truthy input_text); cbn [negb]; [| done].
  rewrite bind_run.
  destruct (generate_response_cases lib input_text st)
    as [(text & ->) | [(text & entry & ->) | (e & He & ->)]]; done.
Qed.

Lemma reload_index_route_index lib fs st :
  index (snd (reload_index_route lib fs st))
  = from_option Some (index st) (built_by lib (fs !! "docs")).
Proof.
  rewrite reload_index_route_run.
  set (st0 := {| index := index st; logged := _ |}).
  pose proof (construct_index_index lib fs "docs" st0) as Hindex.
  by destruct (construct_index lib fs "docs" st0) as [[[i|]|e] st'].
Qed.

(** One request moves the index as [index_after] says. *)
Lemma serve_index x st :
  index (snd (serve (at_lib x) (at_disk x) (received x) st))
  = index_after x (index st).
Proof.
  unfold serve, index_after.
  destruct (String.eqb_spec (path (received x)) "/api/chatbot") as [Hpath|_].
  - rewrite Hpath. cbn [String.eqb Ascii.eqb Bool.eqb].
    destruct (method (received x)); [done |].
    by rewrite dispatch_state, chatbot_index.
  - destruct (String.eqb (path (received x)) "/api/chatbot/reload") eqn:Hreload.
    + destruct (method (received x)); [done |].
      by rewrite dispatch_state, reload_index_route_index.
    + destruct (String.eqb (path (received x)) "/api/chatbot/hello");
        by destruct (method (received x)).
Qed.

Lemma serve_all_cons x later st :
  snd (serve_all (x :: later) st)
  = snd (serve_all later (snd (serve (at_lib x) (at_disk x) (received x) st))).
Proof.
  cbn [serve_all].
  destruct (serve (at_lib x) (at_disk x) (received x) st) as [answer st'].
  cbn [snd]. by destruct (serve_all later st') as [answers st''].
Qed.

(** X7. The index after any run of requests, whatever the library and the
    disk are at each of them, is the index built by the last reload request
    that succeeded, and the index before the run if there was none: queries,
    hellos, failed reloads and unrouted requests leave it alone. *)
Theorem index_after_run (run : list exchange) st :
  index (snd (serve_all run st))
  = fold_left (λ current x, index_after x current) run (index st).
Proof.
  revert st. induction run as [|x later IH]; intros st.
  - reflexivity.
  - rewrite serve_all_cons, IH. cbn [fold_left]. by rewrite serve_index.
Qed.

Lemma index_after_loaded x current :
  is_Some current → is_Some (index_after x current).
Proof.
  intros Hloaded. unfold index_after.
  destruct (method (received x)); [done |].
  destruct (String.eqb _ _); [| done].
  by destruct (built_by _ _).
Qed.

(** X8. Once an index is loaded, no run of requests unloads it: if the
    global [index] is not [None] before a run, it is not [None] after it,
    whatever the requests were and however the reloads among them ended. *)
Theorem index_stays_loaded (run : list exchange) st :
  is_Some (index st) →
  is_Some (index (snd (serve_all run st))).
Proof.
  revert st. induction run as [|x later IH]; intros st Hloaded.
  - done.
  - rewrite serve_all_cons. apply IH. rewrite serve_index.
    by apply index_after_loaded.
Qed.

(** ** Further properties of the module body *)

(** A module body that ends normally passed the credential check, and its
    process is made of the configuration and the disk after [os.makedirs]. *)
Lemma module_init_returned config lib fs st p :
  fst (module_init config lib fs st) = Returned p →
  str_truthy (config_get config "DEEPSEEK_API_KEY") = true ∧
  p = {| cors_origins := [config_get_default config "CLIENT_URL" "*"];
         Settings_llm := {| model := "deepseek-chat";
                            api_key := config_get config "DEEPSEEK_API_KEY";
                            temperature := (7, 10)%Z |};
         disk := os_makedirs fs "docs" |}.
Proof.
  destruct (str_truthy (config_get config "DEEPSEEK_API_KEY")) eqn:Htruthy.
  - destruct (module_init_run config lib fs st Htruthy) as (st0 & _ & ->).
    destruct (construct_index _ _ _ _) as [[built|e] st']; [| done].
    by intros [= <-].
  - unfold module_init. cbn zeta.
    by rewrite bind_run, (DEEPSEEK_API_KEY_missing config st Htruthy).
Qed.

(** X9. Startup over a ["docs"] directory the library makes an index of:
    with the credential in place, when the directory is there and the
    construction from its entries succeeds with the index [i], the module
    body ends normally with the global [index] set to [i] and the disk as it
    found it. *)
Theorem startup_builds_index config lib fs st entries i :
  str_truthy (config_get config "DEEPSEEK_API_KEY") = true →
  fs !! "docs" = Some entries →
  construction_succeeds lib (Some entries) i →
  ∃ p st',
    module_init config lib fs st = (Returned p, st') ∧
    index st' = Some i ∧
    disk p = fs.
Proof.
  intros Htruthy Hdir Hbuilt.
  destruct (module_init_run config lib fs st Htruthy) as (st0 & _ & ->).
  assert (os_makedirs fs "docs" = fs) as Hsame.
  { apply os_makedirs_exists. unfold os_path_exists.
    apply bool_decide_eq_true. by rewrite Hdir. }
  rewrite Hsame.
  assert (construction_succeeds lib (fs !! "docs") i) as Hbuilt' by by rewrite Hdir.
  rewrite (construct_index_built lib fs "docs" st0 i Hbuilt').
  by eexists _, _.
Qed.

(** X10. The credential check comes before everything else the module body
    does with the library and the disk: when the credential is missing,
    [None] or empty, the module body ends at the check with the
    [ValueError], whatever the operating system, the library and the disk
    are; the index is as it was, the log has the one ERROR line of the
    check, and the disk is untouched (no ["docs"] directory is created). *)
Theorem startup_checks_credential_first os config lib fs st :
  str_truthy (config_get config "DEEPSEEK_API_KEY") = false →
  module_init_on os config lib fs st
  = (Raised api_key_required,
     {| index := index st;
        logged := logged st
                  ++ [(ERROR, "DEEPSEEK_API_KEY not found in .env file or environment variables.")] |},
     fs) ∧
  ∀ os' lib' fs',
    fst (module_init_on os' config lib' fs' st) = fst (module_init_on os config lib fs st).
Proof.
  intros Hfalsy.
  assert (∀ os0 lib0 fs0,
            module_init_on os0 config lib0 fs0 st
            = (Raised api_key_required,
               {| index := index st;
                  logged := logged st
                            ++ [(ERROR, "DEEPSEEK_API_KEY not found in .env file or environment variables.")] |},
               fs0))
    as Hraised.
  { intros os0 lib0 fs0. unfold module_init_on. cbn zeta.
    by rewrite (DEEPSEEK_API_KEY_missing config st Hfalsy). }
  split; [apply Hraised |].
  intros os' lib' fs'. by rewrite !Hraised.
Qed.

(** X12. What a started process holds: a credential that is a non-empty
    string, the one of the configuration, and as allowed origin the
    [CLIENT_URL] of the configuration, with ["*"] in its place only when
    the key is missing (a key bound to [None] is passed on as [None]). *)
Theorem started_process_settings config lib fs st p :
  fst (module_init config lib fs st) = Returned p →
  (∃ key, api_key (Settings_llm p) = Some key ∧ key ≠ "" ∧
          config !! "DEEPSEEK_API_KEY" = Some (Some key)) ∧
  cors_origins p = [match config !! "CLIENT_URL" with
                    | Some configured => configured
                    | None => Some "*"
                    end].
Proof.
  intros [Htruthy ->]%module_init_returned. cbn [Settings_llm api_key cors_origins].
  split.
  - unfold config_get in *.
    destruct (config !! "DEEPSEEK_API_KEY") as [[key|]|]; [| done..].
    exists key. split; [done |]. split; [| done].
    intros ->. discriminate Htruthy.
  - unfold config_get_default. by destruct (config !! "CLIENT_URL").
Qed.

(** ** The further properties at concrete inputs *)

Lemma chatbot_answers_witness :
  routed POST "/api/chatbot" Sample.question ∧
  input_text_given Sample.question (JString "When do you open?") ∧
  index Sample.loaded = Some (VectorStoreIndex 7) ∧
  question_answering Sample.lib (VectorStoreIndex 7) (JString "When do you open?")
  = Returned "We open at nine." ∧
  serve Sample.lib Sample.one_doc Sample.question Sample.loaded
  = (Returned (answered "We open at nine."), Sample.loaded).
Proof.
  assert (routed POST "/api/chatbot" Sample.question) as Hrouted
    by (split; reflexivity).
  assert (input_text_given Sample.question (JString "When do you open?")) as Hgiven.
  { exists {[ "input_text" := JString "When do you open?" ]}.
    split; [reflexivity |]. split; [vm_compute; reflexivity | reflexivity]. }
  split; [exact Hrouted |]. split; [exact Hgiven |].
  split; [reflexivity |]. split; [reflexivity |].
  exact (proj1 (chatbot_answers Sample.lib Sample.one_doc Sample.question
                  (JString "When do you open?") Sample.loaded (VectorStoreIndex 7)
                  "We open at nine." Hrouted Hgiven eq_refl eq_refl)).
Defined.

Lemma chatbot_object_body_answers_witness :
  routed POST "/api/chatbot" (Sample.ask (JsonBody (JObject {[ "input_text" := JInt 5 ]}))) ∧
  request_json (Sample.ask (JsonBody (JObject {[ "input_text" := JInt 5 ]})))
  = Returned (JObject {[ "input_text" := JInt 5 ]}) ∧
  match fst (serve Sample.lib Sample.one_doc
               (Sample.ask (JsonBody (JObject {[ "input_text" := JInt 5 ]}))) Sample.loaded) with
  | Returned resp => resp = input_text_required ∨ ∃ text, resp = answered text
  | Raised e => is_Exception e = false
  end.
Proof.
  assert (routed POST "/api/chatbot"
            (Sample.ask (JsonBody (JObject {[ "input_text" := JInt 5 ]})))) as Hrouted
    by (split; reflexivity).
  split; [exact Hrouted |]. split; [reflexivity |].
  exact (proj1 (chatbot_object_body_answers Sample.lib Sample.one_doc _
                  {[ "input_text" := JInt 5 ]} Sample.loaded Hrouted eq_refl)).
Defined.

Lemma chatbot_body_not_an_object_witness :
  routed POST "/api/chatbot" (Sample.ask (JsonBody JNull)) ∧
  request_json (Sample.ask (JsonBody JNull)) = Returned JNull ∧
  (∀ fields, JNull ≠ JObject fields) ∧
  ∃ e, exc_class e = AttributeError ∧
       chatbot Sample.lib (Sample.ask (JsonBody JNull)) Sample.loaded
       = (Raised e, Sample.loaded).
Proof.
  assert (routed POST "/api/chatbot" (Sample.ask (JsonBody JNull))) as Hrouted
    by (split; reflexivity).
  assert (∀ fields, JNull ≠ JObject fields) as Hother by (intros fields; discriminate).
  split; [exact Hrouted |]. split; [reflexivity |]. split; [exact Hother |].
  exact (proj1 (chatbot_body_not_an_object Sample.lib Sample.one_doc _ JNull Sample.loaded
                  Hrouted eq_refl Hother)).
Defined.

Lemma rebuild_then_query_witness :
  construction_succeeds Sample.lib (Sample.one_doc !! "docs") (VectorStoreIndex 1) ∧
  index (snd (construct_index Sample.lib Sample.one_doc "docs" Sample.loaded))
  = Some (VectorStoreIndex 1).
Proof.
  assert (construction_succeeds Sample.lib (Sample.one_doc !! "docs") (VectorStoreIndex 1))
    as Hbuilt.
  { exists ["Opening hours: 9 to 17."].
    split; [discriminate |]. split; vm_compute; reflexivity. }
  split; [exact Hbuilt |].
  exact (proj1 (rebuild_then_query Sample.lib Sample.one_doc "docs" Sample.loaded
                  (VectorStoreIndex 1) Hbuilt)).
Defined.

Lemma reload_index_route_answers_witness :
  routed POST "/api/chatbot/reload" Sample.reload ∧
  match fst (serve Sample.failing_lib Sample.one_doc Sample.reload Sample.loaded) with
  | Returned resp =>
      resp = (make_response
              (jsonify (JObject {[ "message" := JString "Index reloaded successfully" ]}))
              200) ∨
      resp = (make_response
              (jsonify (JObject {[ "error" := JString "Failed to reload index" ]}))
              500)
  | Raised e => is_Exception e = false
  end.
Proof.
  assert (routed POST "/api/chatbot/reload" Sample.reload) as Hrouted
    by (split; reflexivity).
  split; [exact Hrouted |].
  exact (proj1 (reload_index_route_answers Sample.failing_lib Sample.one_doc
                  Sample.reload Sample.loaded Hrouted)).
Defined.

Lemma index_stays_loaded_witness :
  is_Some (index Sample.loaded) ∧
  is_Some (index (snd (serve_all
                         [Exchange Sample.lib Sample.empty_docs Sample.reload;
                          Exchange Sample.failing_lib Sample.one_doc Sample.reload;
                          Exchange Sample.lib Sample.one_doc Sample.question]
                         Sample.loaded))).
Proof.
  assert (is_Some (index Sample.loaded)) as Hloaded by (eexists; reflexivity).
  split; [exact Hloaded |].
  exact (index_stays_loaded _ Sample.loaded Hloaded).
Defined.

(** A run with two failed reloads, a question and a reload that succeeds. *)
Example run_of_requests :
  serve_all [Exchange Sample.lib Sample.empty_docs Sample.reload;
             Exchange Sample.failing_lib Sample.one_doc Sample.reload;
             Exchange Sample.lib Sample.one_doc Sample.question;
             Exchange Sample.lib Sample.one_doc Sample.reload]
            Sample.loaded
  = ([Returned reload_failed; Returned reload_failed;
      Returned (answered "We open at nine."); Returned reload_succeeded],
     {| index := Some (VectorStoreIndex 1);
        logged := [(INFO, "Reloading index via API call...");
                   (INFO, "Constructing index from directory: docs");
                   (ERROR, "Error constructing index: No files found in docs.");
                   (INFO, "Reloading index via API call...");
                   (INFO, "Constructing index from directory: docs");
                   (ERROR, "Error constructing index: Connection error.");
                   (INFO, "Reloading index via API call...");
                   (INFO, "Constructing index from directory: docs");
                   (INFO, "Index constructed successfully.")] |}).
Proof. vm_compute. reflexivity. Qed.

Lemma startup_builds_index_witness :
  str_truthy (config_get Sample.dotenv "DEEPSEEK_API_KEY") = true ∧
  Sample.one_doc !! "docs" = Some [Sample.faq] ∧
  construction_succeeds Sample.lib (Some [Sample.faq]) (VectorStoreIndex 1) ∧
  ∃ p st',
    module_init Sample.dotenv Sample.lib Sample.one_doc fresh_interpreter = (Returned p, st') ∧
    index st' = Some (VectorStoreIndex 1) ∧
    disk p = Sample.one_doc.
Proof.
  assert (str_truthy (config_get Sample.dotenv "DEEPSEEK_API_KEY") = true) as Htruthy
    by (vm_compute; reflexivity).
  assert (Sample.one_doc !! "docs" = Some [Sample.faq]) as Hdir
    by (vm_compute; reflexivity).
  assert (construction_succeeds Sample.lib (Some [Sample.faq]) (VectorStoreIndex 1))
    as Hbuilt.
  { exists ["Opening hours: 9 to 17."]. split; [discriminate |]. split; reflexivity. }
  split; [exact Htruthy |]. split; [exact Hdir |]. split; [exact Hbuilt |].
  exact (startup_builds_index Sample.dotenv Sample.lib Sample.one_doc fresh_interpreter
           [Sample.faq] (VectorStoreIndex 1) Htruthy Hdir Hbuilt).
Defined.

Lemma startup_checks_credential_first_witness :
  str_truthy (config_get {[ "DEEPSEEK_API_KEY" := Some "" ]} "DEEPSEEK_API_KEY") = false ∧
  module_init_on granting {[ "DEEPSEEK_API_KEY" := Some "" ]} Sample.lib ∅ fresh_interpreter
  = (Raised api_key_required,
     {| index := None;
        logged := [(ERROR, "DEEPSEEK_API_KEY not found in .env file or environment variables.")] |},
     ∅).
Proof.
  assert (str_truthy (config_get {[ "DEEPSEEK_API_KEY" := Some "" ]} "DEEPSEEK_API_KEY")
          = false) as Hfalsy by (vm_compute; reflexivity).
  split; [exact Hfalsy |].
  exact (proj1 (startup_checks_credential_first
                  granting {[ "DEEPSEEK_API_KEY" := Some "" ]}
                  Sample.lib ∅ fresh_interpreter Hfalsy)).
Defined.

Lemma started_process_settings_witness :
  fst (module_init {[ "DEEPSEEK_API_KEY" := Some "sk-test"; "CLIENT_URL" := None ]}
         Sample.lib Sample.one_doc fresh_interpreter)
  = Returned {| cors_origins := [None];
                Settings_llm := {| model := "deepseek-chat"; api_key := Some "sk-test";
                                   temperature := (7, 10)%Z |};
                disk := Sample.one_doc |} ∧
  [None] = [match ({[ "DEEPSEEK_API_KEY" := Some "sk-test"; "CLIENT_URL" := None ]}
                     : gmap string (option string)) !! "CLIENT_URL" with
            | Some configured => configured
            | None => Some "*"
            end].
Proof.
  assert (fst (module_init {[ "DEEPSEEK_API_KEY" := Some "sk-test"; "CLIENT_URL" := None ]}
                 Sample.lib Sample.one_doc fresh_interpreter)
          = Returned {| cors_origins := [None];
                        Settings_llm := {| model := "deepseek-chat";
                                           api_key := Some "sk-test";
                                           temperature := (7, 10)%Z |};
                        disk := Sample.one_doc |}) as Hstarted
    by (vm_compute; reflexivity).
  split; [exact Hstarted |].
  exact (proj2 (started_process_settings _ Sample.lib Sample.one_doc fresh_interpreter _
                  Hstarted)).
Defined.
